(** * Cocktail-Shaker: the R-group finder and enumerator

    A shallow embedding of [src/fragmentation/editable_molecule.py]
    (class [RGroupMolObject]) and the properties of its substructure
    search and combinatorial substitution.

    The chemistry itself is RDKit's: the Python code only calls
    [Chem.MolFromSmarts], [Chem.MolFromSmiles], [Mol.GetSubstructMatches],
    [Chem.ReplaceSubstructs] and [Chem.rdmolops.SanitizeMol].  Those are
    taken as an interface (class [RDKit]); everything the Python code does
    around them (loops, the skip test, the dictionaries, printing, the
    exceptions that are or are not handled) is modelled here. *)

From Stdlib Require Import String List Bool Arith ZArith Lia.
From Stdlib Require Import DecimalString DecimalNat.
Import ListNotations.
Open Scope string_scope.
Open Scope list_scope.

Set Implicit Arguments.

(** ** Python exceptions and results *)

Inductive exn_class :=
| ArgumentError        (* Boost.Python: argument types did not match the C++ signature *)
| AttributeError       (* object has no such attribute *)
| IndexError           (* tuple index out of range *)
| RaiseMoleculeError   (* the class declared in this module *)
| RDKitError.          (* anything RDKit itself raises from its C++ core *)

Definition exn_class_eqb (a b : exn_class) : bool :=
  match a, b with
  | ArgumentError, ArgumentError
  | AttributeError, AttributeError
  | IndexError, IndexError
  | RaiseMoleculeError, RaiseMoleculeError
  | RDKitError, RDKitError => true
  | _, _ => false
  end.

Record exn := mkExn { exn_cls : exn_class; exn_msg : string }.

Inductive result (A : Type) :=
| Ok (a : A)
| Raise (e : exn).
Arguments Ok {A} a.
Arguments Raise {A} e.

Definition is_ok {A} (r : result A) : bool :=
  match r with Ok _ => true | Raise _ => false end.

(** ** Python dictionaries: insertion ordered, keys unique *)

Definition dict (V : Type) := list (string * V).

Definition keys {V} (d : dict V) : list string := map fst d.
Definition items {V} (d : dict V) : list (string * V) := d.

(** [d[k] = v]: an existing key keeps its position, a new key goes last. *)
Fixpoint dict_set {V} (k : string) (v : V) (d : dict V) : dict V :=
  match d with
  | [] => [(k, v)]
  | (k', v') :: d' =>
      if String.eqb k' k then (k', v) :: d' else (k', v') :: dict_set k v d'
  end.

Fixpoint dict_get {V} (k : string) (d : dict V) : option V :=
  match d with
  | [] => None
  | (k', v') :: d' => if String.eqb k' k then Some v' else dict_get k d'
  end.

(** ** The RDKit interface *)

(** A match occurrence: the atom indices of the target, one per pattern atom. *)
Definition occurrence := list nat.

Class RDKit := {
  Mol : Type;
  (** [Chem.MolFromSmarts], [Chem.MolFromSmiles]: [None] when the text does
      not parse (RDKit logs and returns [None], it does not raise). *)
  MolFromSmarts : string -> option Mol;
  MolFromSmiles : string -> option Mol;
  (** the C++ matcher behind [Mol.GetSubstructMatches(query, uniquify)],
      the arguments the call does not give at their defaults *)
  SubstructMatch : Mol -> Mol -> bool -> list occurrence;
  (** the C++ rewrite behind [Chem.ReplaceSubstructs(mol, query,
      replacement, replaceAll)]: a tuple of molecules, or an exception *)
  replaceSubstructs : Mol -> Mol -> Mol -> bool -> result (list Mol);
  (** the C++ [sanitizeMol] *)
  sanitizeMol : Mol -> result unit
}.

(** [GetSubstructMatches] is called without [maxMatches]; its default in
    RDKit is 1000, and a call returns no more occurrences than that. *)
Definition maxMatches : nat := 1000.

Class RDKitDefaults {rdkit : RDKit} := {
  SubstructMatch_maxMatches :
    forall (g q : Mol) (uniquify : bool),
      length (SubstructMatch g q uniquify) <= maxMatches
}.

(** ** Entries of the R-group datasource

    [datasources/R_Groups.yaml] gives, under each group name, a two element
    list: the replacement fragment as SMILES ([value[0]]) and the attachment
    pattern as SMARTS ([value[1]]). *)

Definition entry : Type := string * string.
Definition smiles_of (v : entry) : string := fst v.      (* value[0] *)
Definition smarts_of (v : entry) : string := snd v.      (* value[1] *)

(** ** Python values reaching [validate_molecule] *)

Section WithRDKit.
Context {rdkit : RDKit}.

Inductive pyobj :=
| PyNone
| PyMol (m : Mol)
| PyBool (b : bool)
| PyInt (z : Z)
| PyStr (s : string).

(** Truth value testing.  An RDKit [Mol] defines neither [__bool__] nor
    [__len__], so every molecule object is true. *)
Definition truthy (v : pyobj) : bool :=
  match v with
  | PyNone => false
  | PyMol _ => true
  | PyBool b => b
  | PyInt z => negb (Z.eqb z 0)
  | PyStr s => negb (String.eqb s "")
  end.

(** ** The state the methods run in

    [R_GROUPS] is the module level dictionary, [self_molecule] the attribute
    [self.molecule] (absent when the constructor was given [None]),
    [stdout] what [print] has written, [sanitized] the arguments
    [SanitizeMol] has been called with. *)

Record world := mkWorld {
  R_GROUPS : dict entry;
  self_molecule : option Mol;
  stdout : list string;
  sanitized : list pyobj
}.

Definition M (A : Type) : Type := world -> result A * world.

Definition ret {A} (a : A) : M A := fun w => (Ok a, w).

Definition bind {A B} (m : M A) (k : A -> M B) : M B :=
  fun w => match m w with
           | (Ok a, w') => k a w'
           | (Raise e, w') => (Raise e, w')
           end.

Definition lift {A} (r : result A) : M A := fun w => (r, w).

Definition read_R_GROUPS : M (dict entry) := fun w => (Ok (R_GROUPS w), w).

(** [self.molecule]; the attribute is missing when [__init__] was given
    [None]. *)
Definition no_molecule : exn :=
  mkExn AttributeError "'RGroupMolObject' object has no attribute 'molecule'".

Definition read_self_molecule : M Mol :=
  fun w => match self_molecule w with
           | Some m => (Ok m, w)
           | None => (Raise no_molecule, w)
           end.

Definition print (line : string) : M unit :=
  fun w => (Ok tt, mkWorld (R_GROUPS w) (self_molecule w)
                           (stdout w ++ [line]) (sanitized w)).

Definition log_sanitize (v : pyobj) : M unit :=
  fun w => (Ok tt, mkWorld (R_GROUPS w) (self_molecule w)
                           (stdout w) (sanitized w ++ [v])).

End WithRDKit.

Declare Scope py_scope.
Delimit Scope py_scope with py.
Notation "x <- m ;; k" := (bind m (fun x => k))
  (at level 61, m at next level, right associativity) : py_scope.
Notation "m ;;; k" := (bind m (fun _ => k))
  (at level 61, right associativity) : py_scope.
Open Scope py_scope.

Section Program.
Context {rdkit : RDKit}.

(** [for x in xs: body], the variables the body assigns threaded as [acc]. *)
Fixpoint for_each {A S} (xs : list A) (body : A -> S -> M S) (acc : S) : M S :=
  match xs with
  | [] => ret acc
  | x :: xs' => acc' <- body x acc ;; for_each xs' body acc'
  end.

(** [try: body except cls as e: handler(e)] *)
Definition try_except {A} (body : M A) (cls : exn_class)
           (handler : exn -> M A) : M A :=
  fun w => match body w with
           | (Ok a, w') => (Ok a, w')
           | (Raise e, w') =>
               if exn_class_eqb (exn_cls e) cls then handler e w'
               else (Raise e, w')
           end.

(** [try: body finally: return v]: a [return] in the [finally] clause
    discards a pending exception. *)
Definition finally_return {A B} (body : M A) (v : B) : M B :=
  fun w => let (_, w') := body w in (Ok v, w').

(** *** The Python bindings: [None] where a molecule is expected

    A Boost.Python function handed [None] (or any other non-molecule) for a
    molecule argument raises [ArgumentError] before the C++ code runs. *)

Definition argument_error {A} (fn : string) : result A :=
  Raise (mkExn ArgumentError ("Python argument types in " ++ fn
                              ++ " did not match C++ signature")).

Definition GetSubstructMatches (mol : Mol) (query : option Mol)
           (uniquify : bool) : result (list occurrence) :=
  match query with
  | Some q => Ok (SubstructMatch mol q uniquify)
  | None => argument_error "Mol.GetSubstructMatches"
  end.

Definition ReplaceSubstructs (mol : Mol) (query replacement : option Mol)
           (replaceAll : bool) : result (list Mol) :=
  match query, replacement with
  | Some q, Some r => replaceSubstructs mol q r replaceAll
  | _, _ => argument_error "rdkit.Chem.rdmolops.ReplaceSubstructs"
  end.

Definition SanitizeMol (v : pyobj) : M unit :=
  log_sanitize v ;;;
  match v with
  | PyMol m => lift (sanitizeMol m)
  | _ => lift (argument_error "rdkit.Chem.rdmolops.SanitizeMol")
  end.

(** [t[0]] on a tuple *)
Definition index0 {A} (t : list A) : result A :=
  match t with
  | x :: _ => Ok x
  | [] => Raise (mkExn IndexError "tuple index out of range")
  end.

Definition str_of_nat (n : nat) : string :=
  NilEmpty.string_of_uint (Nat.to_uint n).

Definition str_of_exn (e : exn) : string := exn_msg e.

(** ** [RGroupMolObject.validate_molecule] *)

Definition validate_molecule (molecule : pyobj) : M pyobj :=
  if negb (truthy molecule) then
    finally_return
      (try_except (SanitizeMol molecule) RaiseMoleculeError
         (fun RME => print ("Not a valid molecule: " ++ str_of_exn RME)))
      molecule
  else ret PyNone.

(** ** [RGroupMolObject.find_r_groups] *)

Definition found_line (key : string) (count : nat) : string :=
  "Found Functional Group: " ++ key ++ " | Pattern Count: " ++ str_of_nat count.

Definition find_body (kv : string * entry) (pattern_payload : dict entry)
  : M (dict entry) :=
  let '(key, value) := kv in
  let pattern := MolFromSmarts (smarts_of value) in
  mol <- read_self_molecule ;;
  matches <- lift (GetSubstructMatches mol pattern false) ;;
  match matches with
  | _ :: _ =>
      mol' <- read_self_molecule ;;
      matches' <- lift (GetSubstructMatches mol' pattern false) ;;
      print (found_line key (length matches')) ;;;
      ret (dict_set key (smiles_of value, smarts_of value) pattern_payload)
  | [] => ret pattern_payload
  end.

Definition find_r_groups : M (dict entry) :=
  let pattern_payload := [] in
  groups <- read_R_GROUPS ;;
  for_each (items groups) find_body pattern_payload.

(** ** [RGroupMolObject.r_group_enumerator] *)

Definition enum_inner (value : entry) (smarts_mol : option Mol)
           (rv : string * entry) (modified_molecules : list Mol)
  : M (list Mol) :=
  let '(r_functional_group, r_data) := rv in
  if String.eqb (smarts_of r_data) (smarts_of value) then
    ret modified_molecules                                   (* continue *)
  else
    mol <- read_self_molecule ;;
    modified_molecule <-
      lift (ReplaceSubstructs mol smarts_mol
              (MolFromSmiles (smiles_of r_data)) true) ;;
    first <- lift (index0 modified_molecule) ;;
    ret (modified_molecules ++ [first]).

Definition enum_outer (kv : string * entry) (modified_molecules : list Mol)
  : M (list Mol) :=
  let '(key, value) := kv in
  let smarts_mol := MolFromSmarts (smarts_of value) in
  groups <- read_R_GROUPS ;;
  for_each (items groups) (enum_inner value smarts_mol) modified_molecules.

Definition r_group_enumerator (patterns_found : dict entry) : M (list Mol) :=
  let modified_molecules := [] in
  for_each (items patterns_found) enum_outer modified_molecules.

End Program.

(** ** The script at the bottom of the module: find, then enumerate *)

Section Pipeline.
Context {rdkit : RDKit}.

Definition main_pipeline : M (list Mol) :=
  patterns_found <- find_r_groups ;;
  r_group_enumerator patterns_found.

End Pipeline.

(** ** What the loops compute, as plain list functions

    These are the reference functions the theorems compare the methods
    with; the lemmas below show that the loops compute them. *)

Section Reference.
Context {rdkit : RDKit}.

(** The occurrences the finder looks at for one library value: the
    un-uniquified match sequence of its pattern on [self.molecule]. *)
Definition occurrences (self_mol : option Mol) (value : entry)
  : result (list occurrence) :=
  match self_mol with
  | Some g => GetSubstructMatches g (MolFromSmarts (smarts_of value)) false
  | None => Raise no_molecule
  end.

(** The entry has at least one occurrence. *)
Definition hit (self_mol : option Mol) (kv : string * entry) : bool :=
  match occurrences self_mol (snd kv) with
  | Ok (_ :: _) => true
  | _ => false
  end.

Definition count (self_mol : option Mol) (kv : string * entry) : nat :=
  match occurrences self_mol (snd kv) with
  | Ok ms => length ms
  | Raise _ => 0
  end.

(** The pass over the library from a given payload on: the result, and
    the lines printed on the way. *)
Fixpoint find_from (self_mol : option Mol) (lib : dict entry)
         (payload : dict entry) : result (dict entry) * list string :=
  match lib with
  | [] => (Ok payload, [])
  | (key, value) :: lib' =>
      match occurrences self_mol value with
      | Raise e => (Raise e, [])
      | Ok [] => find_from self_mol lib' payload
      | Ok ms =>
          let (r, lines) :=
            find_from self_mol lib'
              (dict_set key (smiles_of value, smarts_of value) payload) in
          (r, found_line key (length ms) :: lines)
      end
  end.

(** The candidate is passed over for the found value: same pattern text. *)
Definition skipped (value : entry) (rv : string * entry) : bool :=
  String.eqb (smarts_of (snd rv)) (smarts_of value).

Definition candidates (lib : dict entry) (value : entry) : dict entry :=
  filter (fun rv => negb (skipped value rv)) lib.

(** The (found entry, candidate entry) pairs in visiting order. *)
Definition pairs (found lib : dict entry)
  : list ((string * entry) * (string * entry)) :=
  flat_map (fun f => map (pair f) (candidates lib (snd f))) found.

(** The one derivative of a pair: the first molecule of the replace-all
    rewrite of [self.molecule]. *)
Definition rewrite (self_mol : option Mol) (value candidate : entry)
  : result Mol :=
  match self_mol with
  | Some g =>
      match ReplaceSubstructs g (MolFromSmarts (smarts_of value))
              (MolFromSmiles (smiles_of candidate)) true with
      | Ok t => index0 t
      | Raise e => Raise e
      end
  | None => Raise no_molecule
  end.

Definition rewrite_pair (self_mol : option Mol)
           (p : (string * entry) * (string * entry)) : result Mol :=
  rewrite self_mol (snd (fst p)) (snd (snd p)).

(** Rewrite the pairs in order, stopping at the first exception. *)
Fixpoint collect (self_mol : option Mol) (acc : list Mol)
         (ps : list ((string * entry) * (string * entry)))
  : result (list Mol) :=
  match ps with
  | [] => Ok acc
  | p :: ps' =>
      match rewrite_pair self_mol p with
      | Ok d => collect self_mol (acc ++ [d]) ps'
      | Raise e => Raise e
      end
  end.

(** A world that differs from [w] by printed lines only. *)
Definition printed (w : world) (lines : list string) : world :=
  mkWorld (R_GROUPS w) (self_molecule w) (stdout w ++ lines) (sanitized w).

(** [pattern_payload[key] = value], and the line printed for a hit. *)
Definition store (p : dict entry) (kv : string * entry) : dict entry :=
  dict_set (fst kv) (snd kv) p.

Definition line_of (self_mol : option Mol) (kv : string * entry) : string :=
  found_line (fst kv) (count self_mol kv).

(** The pattern text of an entry, the text the skip test compares. *)
Definition pattern_text (kv : string * entry) : string := smarts_of (snd kv).

(** Two pairs carry the same fragment and pattern texts. *)
Definition same_texts (p q : (string * entry) * (string * entry)) : Prop :=
  snd (fst p) = snd (fst q) /\ snd (snd p) = snd (snd q).

(** The pattern of a library value parses. *)
Definition pattern_parses (kv : string * entry) : Prop :=
  MolFromSmarts (smarts_of (snd kv)) <> None.

End Reference.

(** ** A concrete chemistry: unbranched chains

    An instance of the interface small enough to compute with.  A molecule
    is a chain of one-letter atoms, each bonded to the next; a pattern is a
    chain too, with [*] for any atom.  A pattern of two or more atoms can be
    laid on the chain in either direction, so a symmetric pattern has two
    assignments onto the same atoms: the automorphic duplicates that
    [uniquify] removes. *)

Module ChainChem.

Import Ascii.

Definition chain := list ascii.

Definition is_upper (c : ascii) : bool :=
  let n := nat_of_ascii c in ((65 <=? n) && (n <=? 90))%nat.

Definition is_star (c : ascii) : bool := Ascii.eqb c "*"%char.

(** One atom per letter; an atom may be written in brackets, so that [O]
    and O are two texts for the same pattern. *)
Fixpoint atoms (ok : ascii -> bool) (l : list ascii) : option chain :=
  match l with
  | [] => Some []
  | a :: rest =>
      match (if Ascii.eqb a "["%char then
               match rest with
               | b :: c :: rest' =>
                   if Ascii.eqb c "]"%char && ok b
                   then option_map (cons b) (atoms ok rest')
                   else None
               | _ => None
               end
             else None) with
      | Some r => Some r
      | None => if ok a then option_map (cons a) (atoms ok rest) else None
      end
  end.

Definition parse (ok : ascii -> bool) (s : string) : option chain :=
  match atoms ok (list_ascii_of_string s) with
  | Some (a :: l) => Some (a :: l)
  | _ => None
  end.

Definition parse_smiles : string -> option chain := parse is_upper.
Definition parse_smarts : string -> option chain :=
  parse (fun c => is_upper c || is_star c).

Definition atom_match (q t : ascii) : bool := is_star q || Ascii.eqb q t.

(** The pattern lies on the first atoms of [t]. *)
Fixpoint prefix_match (q t : chain) : bool :=
  match q, t with
  | [], _ => true
  | a :: q', b :: t' => atom_match a b && prefix_match q' t'
  | _ :: _, [] => false
  end.

Definition occurs_here (q t : chain) : bool :=
  match q with
  | [] => false
  | _ => prefix_match q t || prefix_match (rev q) t
  end.

(** All assignments of the pattern starting at atom [i] or later. *)
Fixpoint matches_from (q : chain) (uniquify : bool) (i : nat) (t : chain)
  : list occurrence :=
  match t with
  | [] => []
  | _ :: t' =>
      let n := length q in
      let forward := prefix_match q t && (0 <? n)%nat in
      let backward := prefix_match (rev q) t && (1 <? n)%nat in
      (if forward then [seq i n] else [])
        ++ (if backward && negb (uniquify && forward) then [rev (seq i n)] else [])
        ++ matches_from q uniquify (S i) t'
  end.

(** The matcher stops at [maxMatches] occurrences. *)
Definition substruct_match (t q : chain) (uniquify : bool) : list occurrence :=
  firstn maxMatches (matches_from q uniquify 0 t).





(** Replace every occurrence, left to right; [skip] atoms of the occurrence
    just replaced are still to be dropped. *)
Fixpoint replace_all (q r : chain) (skip : nat) (t : chain) : chain :=
  match t with
  | [] => []
  | a :: t' =>
      match skip with
      | S k => replace_all q r k t'
      | O => if occurs_here q t
             then r ++ replace_all q r (length q - 1) t'
             else a :: replace_all q r 0 t'
      end
  end.

(** Replace the occurrence that starts at atom [i] only. *)
Definition replace_at (q r : chain) (i : nat) (t : chain) : chain :=
  firstn i t ++ r ++ skipn (i + length q) t.

Fixpoint starts (q : chain) (i : nat) (t : chain) : list nat :=
  match t with
  | [] => []
  | _ :: t' => (if occurs_here q t then [i] else []) ++ starts q (S i) t'
  end.

Definition replace_substructs (t q r : chain) (replaceAll : bool)
  : result (list chain) :=
  if replaceAll then Ok [replace_all q r 0 t]
  else match starts q 0 t with
       | [] => Ok [t]
       | ps => Ok (map (fun i => replace_at q r i t) ps)
       end.

(** Molecules are kept as their text, so that results read as written. *)
Definition of_text (s : string) : chain := list_ascii_of_string s.
Definition to_text (c : chain) : string := string_of_list_ascii c.

Definition text_if_parsed (p : string -> option chain) (s : string)
  : option string :=
  option_map to_text (p s).

Definition replace_text (t q r : string) (replaceAll : bool)
  : result (list string) :=
  match replace_substructs (of_text t) (of_text q) (of_text r) replaceAll with
  | Ok ms => Ok (map to_text ms)
  | Raise e => Raise e
  end.

#[export] Instance chain_rdkit : RDKit := {
  Mol := string;
  MolFromSmarts := text_if_parsed parse_smarts;
  MolFromSmiles := text_if_parsed parse_smiles;
  SubstructMatch := fun t q u => substruct_match (of_text t) (of_text q) u;
  replaceSubstructs := replace_text;
  sanitizeMol := fun _ => Ok tt
}.

#[export] Instance chain_defaults : RDKitDefaults := {
  SubstructMatch_maxMatches := fun t q u =>
    firstn_le_length maxMatches (matches_from (of_text q) u 0 (of_text t))
}.

Definition world_of (lib : dict entry) (s : string) : world :=
  mkWorld lib (MolFromSmiles s) [] [].


(** A three entry library with pairwise distinct pattern text. *)
Definition lib_abc : dict entry :=
  [("alcohol", ("O", "O")); ("amine", ("N", "N")); ("thiol", ("S", "S"))].

(** A shared pattern text, and two texts for one pattern. *)
Definition lib_dup : dict entry :=
  [("alcohol", ("O", "O")); ("hydroxyl", ("O", "O"));
   ("oxy", ("O", "[O]")); ("amine", ("N", "N"))].

(** An entry whose pattern does not parse, one whose fragment does not. *)
Definition lib_bad_pattern : dict entry :=
  [("amine", ("N", "N")); ("broken", ("S", "(")); ("alcohol", ("O", "O"))].

Definition lib_bad_fragment : dict entry :=
  [("alcohol", ("O", "O")); ("broken", ("(", "S")); ("amine", ("N", "N"))].

End ChainChem.


(** ** [FileWriter]

    The files are written through RDKit's [Chem.SDWriter] and
    [Chem.SmilesWriter].  What is kept of them here: constructing a writer
    on a path creates the file, or empties the one that is there; [write]
    adds one molecule to the file; [NumMols] is the number of molecules the
    writer has written; [close] leaves the file as written.  A file is the
    sequence of molecules it holds, with the class of writer that made it;
    the disk is taken to be writable. *)

Section FileWriterModel.
Context {rdkit : RDKit}.

Inductive writer_class := SDWriter | SmilesWriter.

Record file := mkFile {
  written_by : writer_class;
  contents : list Mol
}.

Definition disk := dict file.

Record writer := mkWriter {
  writer_of : writer_class;
  path : string;
  written : list Mol
}.

(** [Chem.SDWriter(path)], [Chem.SmilesWriter(path)] *)
Definition open_writer (c : writer_class) (p : string) (d : disk)
  : writer * disk :=
  (mkWriter c p [], dict_set p (mkFile c []) d).

Definition NumMols (wr : writer) : nat := length (written wr).

Definition write (wr : writer) (m : Mol) (d : disk) : writer * disk :=
  let wr' := mkWriter (writer_of wr) (path wr) (written wr ++ [m]) in
  (wr', dict_set (path wr) (mkFile (writer_of wr) (written wr')) d).

Definition close (wr : writer) (d : disk) : disk := d.

(** [n == v] for the int [n]: an int equals an int of the same value and
    the bools [True] (1) and [False] (0); it equals no other object. *)
Definition int_eq (n : nat) (v : pyobj) : bool :=
  match v with
  | PyInt z => Z.eqb (Z.of_nat n) z
  | PyBool b => Z.eqb (Z.of_nat n) (if b then 1 else 0)
  | _ => false
  end.

Record FileWriter := mkFileWriter {
  fw_molecules : list Mol;       (* self.molecules *)
  fw_name : string;              (* self.name *)
  fw_option : string;            (* self.option *)
  fw_fragmentation : pyobj       (* self.fragmentation *)
}.

(** [for i in self.molecules: writer.write(i)] *)
Fixpoint write_each (molecules : list Mol) (wr : writer) (d : disk)
  : writer * disk :=
  match molecules with
  | [] => (wr, d)
  | i :: rest => let (wr', d') := write wr i d in write_each rest wr' d'
  end.

(** The loop of the fragmented branch; [c] and [ext] are the writer class
    and the extension, the only things in which [sdf_writer] and
    [txt_writer] differ. *)
Fixpoint write_fragments (c : writer_class) (ext : string) (self : FileWriter)
         (molecules : list Mol) (file_count : nat) (wr : writer) (d : disk)
  : nat * writer * disk :=
  match molecules with
  | [] => (file_count, wr, d)
  | i :: rest =>
      let '(file_count', wr', d') :=
        if int_eq (NumMols wr) (fw_fragmentation self) then
          let d1 := close wr d in
          let file_count1 := file_count + 1 in
          let (wr1, d2) :=
            open_writer c ((fw_name self ++ str_of_nat file_count1) ++ ext) d1 in
          (file_count1, wr1, d2)
        else (file_count, wr, d) in
      let (wr'', d'') := write wr' i d' in
      write_fragments c ext self rest file_count' wr'' d''
  end.

Definition sdf_writer (self : FileWriter) (d : disk) : disk :=
  if negb (truthy (fw_fragmentation self)) then
    let (wr, d1) := open_writer SDWriter (fw_name self ++ ".sdf") d in
    let (wr', d2) := write_each (fw_molecules self) wr d1 in
    close wr' d2
  else
    let file_count := 1 in
    let (wr, d1) :=
      open_writer SDWriter ((fw_name self ++ str_of_nat file_count) ++ ".sdf") d in
    let '(_, wr', d2) :=
      write_fragments SDWriter ".sdf" self (fw_molecules self) file_count wr d1 in
    close wr' d2.

Definition txt_writer (self : FileWriter) (d : disk) : disk :=
  if negb (truthy (fw_fragmentation self)) then
    let (wr, d1) := open_writer SmilesWriter (fw_name self ++ ".txt") d in
    let (wr', d2) := write_each (fw_molecules self) wr d1 in
    close wr' d2
  else
    let file_count := 1 in
    let (wr, d1) :=
      open_writer SmilesWriter
                  ((fw_name self ++ str_of_nat file_count) ++ ".txt") d in
    let '(_, wr', d2) :=
      write_fragments SmilesWriter ".txt" self (fw_molecules self)
                      file_count wr d1 in
    close wr' d2.

(** [getattr(FileWriter, option_decision)] for a name that ends in
    [_writer], as [option_decision] does: the class has the two attributes
    [sdf_writer] and [txt_writer] with such a name, and [object] gives it
    none. *)
Definition getattr_FileWriter (option_decision : string)
  : result (FileWriter -> disk -> disk) :=
  if String.eqb option_decision "sdf_writer" then Ok sdf_writer
  else if String.eqb option_decision "txt_writer" then Ok txt_writer
  else Raise (mkExn AttributeError
                ("type object 'FileWriter' has no attribute '"
                   ++ option_decision ++ "'")).

(** [FileWriter(name, molecules, option, fragementation)] *)
Definition FileWriter_init (name : string) (molecules : list Mol)
           (option : string) (fragementation : pyobj) (d : disk)
  : result FileWriter * disk :=
  let self := mkFileWriter molecules name option fragementation in
  let option_decision := (fw_option self ++ "_writer")%string in
  match getattr_FileWriter option_decision with
  | Ok method_to_call => (Ok self, method_to_call self d)
  | Raise e => (Raise e, d)
  end.

(** ** [RGroupMolObject.__init__] and the script under [__main__]

    Of the attributes the constructor sets, [molecule] is the one the
    methods above read; [original_smiles] and [validate] are read by
    [validate_smiles] only and are not kept. *)

Definition RGroupMolObject_init (molecule : option Mol) : M unit :=
  fun w => match molecule with
           | Some m => (Ok tt, mkWorld (R_GROUPS w) (Some m)
                                       (stdout w) (sanitized w))
           | None => (Ok tt, mkWorld (R_GROUPS w) None
                                     (stdout w) (sanitized w))
           end.

Definition main_script (w : world) (d : disk) : result unit * world * disk :=
  match (RGroupMolObject_init (MolFromSmiles "c1cc(CCCO)ccc1") ;;;
         main_pipeline) w with
  | (Raise e, w') => (Raise e, w', d)
  | (Ok modified_molecules, w') =>
      match FileWriter_init "test" modified_molecules "sdf" (PyInt 1) d with
      | (Raise e, d1) => (Raise e, w', d1)
      | (Ok _, d1) =>
          match FileWriter_init "test" modified_molecules "txt" PyNone d1 with
          | (Raise e, d2) => (Raise e, w', d2)
          | (Ok _, d2) => (Ok tt, w', d2)
          end
      end
  end.

End FileWriterModel.

(** ** What the fragmented loop writes, as plain list functions *)

Section FileWriterReference.
Context {rdkit : RDKit}.

(** The contents of the files in the order they are opened, [cur] being
    what the open file holds so far. *)
Fixpoint split_from (fragmentation : pyobj) (cur molecules : list Mol)
  : list (list Mol) :=
  match molecules with
  | [] => [cur]
  | i :: rest =>
      if int_eq (length cur) fragmentation
      then cur :: split_from fragmentation [i] rest
      else split_from fragmentation (cur ++ [i]) rest
  end.

(** Files numbered from [k] on, each holding one of the given contents. *)
Fixpoint store_files (c : writer_class) (name ext : string) (k : nat)
         (files : list (list Mol)) (d : disk) : disk :=
  match files with
  | [] => d
  | f :: fs =>
      store_files c name ext (S k) fs
        (dict_set ((name ++ str_of_nat k) ++ ext)%string (mkFile c f) d)
  end.

(** The number of molecules at which a true [fragmentation] closes a
    file: a positive int, or [True]; any other true object equals no
    count. *)
Definition batch_size (fragmentation : pyobj) : option nat :=
  match fragmentation with
  | PyInt z => if Z.ltb 0 z then Some (Z.to_nat z) else None
  | PyBool true => Some 1
  | _ => None
  end.

End FileWriterReference.

(** ** The chain chemistry on any text

    The same matcher and rewrite as [ChainChem], with a SMILES reader that
    takes every non-empty text, one atom per character: enough to run the
    script, whose scaffold is written [c1cc(CCCO)ccc1]. *)

Module TextChem.

Definition any_smiles (s : string) : option string :=
  match s with
  | EmptyString => None
  | _ => Some s
  end.

#[export] Instance text_rdkit : RDKit := {
  Mol := string;
  MolFromSmarts := ChainChem.text_if_parsed ChainChem.parse_smarts;
  MolFromSmiles := any_smiles;
  SubstructMatch := fun t q u =>
    ChainChem.substruct_match (ChainChem.of_text t) (ChainChem.of_text q) u;
  replaceSubstructs := ChainChem.replace_text;
  sanitizeMol := fun _ => Ok tt
}.

Definition world_with (lib : dict entry) : world := mkWorld lib None [] [].

End TextChem.

(** * Lemmas *)

Unset Implicit Arguments.

(** ** Dictionaries *)

Section DictFacts.
Variable V : Type.

Lemma dict_set_fresh (k : string) (v : V) (d : dict V) :
  ~ In k (keys d) -> dict_set k v d = d ++ [(k, v)].
Proof.
  induction d as [|[k' v'] d IH]; simpl; intros Hk; [reflexivity|].
  destruct (String.eqb_spec k' k) as [->|Hne].
  - exfalso. apply Hk. now left.
  - rewrite IH; [reflexivity|]. intros Hin. apply Hk. now right.
Qed.

Lemma keys_app (d1 d2 : dict V) : keys (d1 ++ d2) = keys d1 ++ keys d2.
Proof. unfold keys. apply map_app. Qed.

(** Storing entries with new, pairwise different keys appends them. *)
Lemma fold_dict_set_fresh (l d : dict V) :
  NoDup (keys (d ++ l)) ->
  fold_left (fun p kv => dict_set (fst kv) (snd kv) p) l d = d ++ l.
Proof.
  revert d. induction l as [|[k v] l IH]; intros d Hnd; simpl.
  - now rewrite app_nil_r.
  - rewrite dict_set_fresh.
    + rewrite IH; rewrite <- app_assoc; simpl; [reflexivity|exact Hnd].
    + rewrite keys_app in Hnd. simpl in Hnd.
      apply NoDup_remove_2 in Hnd. intros Hin. apply Hnd.
      apply in_or_app. now left.
Qed.

Lemma NoDup_keys_filter (f : string * V -> bool) (d : dict V) :
  NoDup (keys d) -> NoDup (keys (filter f d)).
Proof.
  unfold keys. induction d as [|kv d IH]; simpl; intros Hnd; [constructor|].
  inversion Hnd as [|x l Hx Hl]; subst.
  destruct (f kv); simpl; auto.
  constructor; auto.
  intros Hin. apply Hx.
  apply in_map_iff in Hin. destruct Hin as [y [Hy Hin]].
  apply filter_In in Hin. apply in_map_iff. exists y. tauto.
Qed.

Lemma dict_get_In (k : string) (v : V) (d : dict V) :
  NoDup (keys d) -> In (k, v) d -> dict_get k d = Some v.
Proof.
  induction d as [|[k' v'] d IH]; simpl; intros Hnd Hin; [contradiction|].
  inversion Hnd as [|x l Hx Hl]; subst.
  destruct Hin as [Heq|Hin].
  - inversion Heq; subst. now rewrite String.eqb_refl.
  - destruct (String.eqb_spec k' k) as [->|Hne].
    + exfalso. apply Hx. apply in_map_iff. exists (k, v). auto.
    + auto.
Qed.

End DictFacts.

(** ** Counting the entries with another pattern text *)

Section CountFacts.
Variable A : Type.
Variable h : A -> string.

Lemma filter_other_absent (x : string) (l : list A) :
  ~ In x (map h l) ->
  length (filter (fun c => negb (String.eqb (h c) x)) l) = length l.
Proof.
  induction l as [|a l IH]; simpl; intros Hx; [reflexivity|].
  destruct (String.eqb_spec (h a) x) as [Heq|Hne]; simpl.
  - exfalso. apply Hx. now left.
  - rewrite IH; auto.
Qed.

Lemma filter_other_present (x : string) (l : list A) :
  NoDup (map h l) -> In x (map h l) ->
  length (filter (fun c => negb (String.eqb (h c) x)) l) = length l - 1.
Proof.
  induction l as [|a l IH]; simpl; intros Hnd Hx; [contradiction|].
  inversion Hnd as [|y l' Hy Hl]; subst.
  destruct (String.eqb_spec (h a) x) as [Heq|Hne]; simpl.
  - subst x. rewrite filter_other_absent by exact Hy. lia.
  - destruct Hx as [Hx|Hx]; [contradiction|].
    rewrite IH by assumption.
    destruct l; simpl in *; [contradiction|lia].
Qed.

Lemma filter_other_two (x : string) (l : list A) (c1 c2 : A) :
  In c1 l -> In c2 l -> h c1 <> h c2 ->
  filter (fun c => negb (String.eqb (h c) x)) l <> [].
Proof.
  intros H1 H2 Hne Hnil.
  assert (Hall : forall c, In c l -> h c = x).
  { intros c Hc. destruct (String.eqb_spec (h c) x) as [Heq|Hn]; [exact Heq|].
    exfalso.
    assert (Hin : In c (filter (fun c => negb (String.eqb (h c) x)) l)).
    { apply filter_In. split; [exact Hc|].
      destruct (String.eqb_spec (h c) x); [contradiction|reflexivity]. }
    rewrite Hnil in Hin. exact Hin. }
  apply Hne. rewrite (Hall c1 H1), (Hall c2 H2). reflexivity.
Qed.

End CountFacts.

(** ** The enumerator's loops *)

Section EnumeratorLoops.
Context {rdkit : RDKit}.

Lemma collect_app (sm : option Mol) (ps1 ps2 : list _) (acc : list Mol) :
  collect sm acc (ps1 ++ ps2) =
  match collect sm acc ps1 with
  | Ok acc' => collect sm acc' ps2
  | Raise e => Raise e
  end.
Proof.
  revert acc. induction ps1 as [|p ps1 IH]; intros acc; simpl; [reflexivity|].
  destruct (rewrite_pair sm p); [apply IH|reflexivity].
Qed.

(** One step of the inner loop is one step of [collect], or nothing. *)
Lemma enum_inner_step (kf : string) (value : entry) (rv : string * entry)
      (acc : list Mol) (w : world) :
  enum_inner value (MolFromSmarts (smarts_of value)) rv acc w =
  (if skipped value rv then Ok acc
   else match rewrite_pair (self_molecule w) ((kf, value), rv) with
        | Ok d => Ok (acc ++ [d])
        | Raise e => Raise e
        end, w).
Proof.
  destruct rv as [rk rd]. unfold enum_inner, skipped, rewrite_pair, rewrite.
  simpl. destruct (String.eqb (smarts_of rd) (smarts_of value)); [reflexivity|].
  unfold bind, read_self_molecule, lift, ret.
  destruct (self_molecule w) as [g|]; [|reflexivity].
  destruct (ReplaceSubstructs g _ _ true) as [t|e]; [|reflexivity].
  destruct (index0 t); reflexivity.
Qed.

Lemma enum_inner_loop (kf : string) (value : entry) (lib : dict entry)
      (acc : list Mol) (w : world) :
  for_each lib (enum_inner value (MolFromSmarts (smarts_of value))) acc w =
  (collect (self_molecule w) acc (map (pair (kf, value)) (candidates lib value)), w).
Proof.
  revert acc. induction lib as [|rv lib IH]; intros acc; simpl; [reflexivity|].
  unfold bind at 1. rewrite (enum_inner_step kf).
  destruct (skipped value rv); simpl.
  - apply IH.
  - destruct (rewrite_pair (self_molecule w) (kf, value, rv)); [apply IH|reflexivity].
Qed.

Lemma enum_outer_loop (found : dict entry) (acc : list Mol) (w : world) :
  for_each found enum_outer acc w =
  (collect (self_molecule w) acc (pairs found (R_GROUPS w)), w).
Proof.
  revert acc. induction found as [|[kf value] found IH]; intros acc; simpl;
    [reflexivity|].
  unfold bind at 1. unfold enum_outer at 1.
  unfold bind at 1. unfold read_R_GROUPS at 1. unfold items.
  rewrite (enum_inner_loop kf). unfold pairs in *. simpl.
  rewrite collect_app.
  destruct (collect (self_molecule w) acc _); [apply IH|reflexivity].
Qed.

(** The enumerator is [collect] over the pairs, and prints nothing. *)
Lemma r_group_enumerator_collect (found : dict entry) (w : world) :
  r_group_enumerator found w =
  (collect (self_molecule w) [] (pairs found (R_GROUPS w)), w).
Proof. unfold r_group_enumerator, items. apply enum_outer_loop. Qed.

(** A successful [collect] has one derivative per pair, in order. *)
Lemma collect_ok (sm : option Mol) (ps : list _) (acc out : list Mol) :
  collect sm acc ps = Ok out ->
  exists ds, out = acc ++ ds /\
             Forall2 (fun p d => rewrite_pair sm p = Ok d) ps ds.
Proof.
  revert acc. induction ps as [|p ps IH]; intros acc; simpl; intros H.
  - inversion H; subst. exists []. split; [now rewrite app_nil_r|constructor].
  - destruct (rewrite_pair sm p) as [d|e] eqn:E; [|discriminate].
    destruct (IH _ H) as [ds [Hout Hall]].
    exists (d :: ds). split.
    + rewrite Hout, <- app_assoc. reflexivity.
    + constructor; assumption.
Qed.

Lemma collect_total (sm : option Mol) (ps : list _) (acc : list Mol) :
  Forall (fun p => is_ok (rewrite_pair sm p) = true) ps ->
  exists out, collect sm acc ps = Ok out.
Proof.
  revert acc. induction ps as [|p ps IH]; intros acc Hall; simpl.
  - now exists acc.
  - inversion Hall as [|x l Hp Hl]; subst.
    destruct (rewrite_pair sm p); [apply IH; exact Hl|discriminate].
Qed.

Lemma length_pairs (found lib : dict entry) :
  length (pairs found lib) =
  list_sum (map (fun f => length (candidates lib (snd f))) found).
Proof.
  unfold pairs. induction found as [|f found IH]; simpl; [reflexivity|].
  rewrite length_app, length_map, IH. reflexivity.
Qed.

Lemma in_pairs (found lib : dict entry) (f c : string * entry) :
  In (f, c) (pairs found lib) <->
  In f found /\ In c lib /\ smarts_of (snd c) <> smarts_of (snd f).
Proof.
  unfold pairs, candidates, skipped. rewrite in_flat_map. split.
  - intros [f' [Hf Hin]]. apply in_map_iff in Hin.
    destruct Hin as [c' [Heq Hc]]. inversion Heq; subst.
    apply filter_In in Hc. destruct Hc as [Hc Hb].
    repeat split; auto.
    destruct (String.eqb_spec (smarts_of (snd c)) (smarts_of (snd f)));
      [discriminate|assumption].
  - intros [Hf [Hc Hne]]. exists f. split; [exact Hf|].
    apply in_map. apply filter_In. split; [exact Hc|].
    destruct (String.eqb_spec (smarts_of (snd c)) (smarts_of (snd f)));
      [contradiction|reflexivity].
Qed.

End EnumeratorLoops.

(** ** The finder's loop *)

Section FinderLoop.
Context {rdkit : RDKit}.

Lemma printed_nil (w : world) : printed w [] = w.
Proof. destruct w. unfold printed. simpl. now rewrite app_nil_r. Qed.

Lemma printed_printed (w : world) (l1 l2 : list string) :
  printed (printed w l1) l2 = printed w (l1 ++ l2).
Proof. unfold printed. simpl. now rewrite app_assoc. Qed.

Lemma find_body_step (key : string) (value : entry) (payload : dict entry)
      (w : world) :
  find_body (key, value) payload w =
  match occurrences (self_molecule w) value with
  | Raise e => (Raise e, w)
  | Ok [] => (Ok payload, w)
  | Ok ms => (Ok (dict_set key (smiles_of value, smarts_of value) payload),
              printed w [found_line key (length ms)])
  end.
Proof.
  unfold find_body, occurrences, bind, read_self_molecule, lift, ret, print.
  destruct (self_molecule w) as [g|] eqn:Eg; [|reflexivity].
  destruct (GetSubstructMatches g _ false) as [[|m ms]|e] eqn:Em;
    try reflexivity.
  rewrite Eg, Em. reflexivity.
Qed.

Lemma find_loop (lib payload : dict entry) (w : world) :
  for_each lib find_body payload w =
  (fst (find_from (self_molecule w) lib payload),
   printed w (snd (find_from (self_molecule w) lib payload))).
Proof.
  revert payload w. induction lib as [|[key value] lib IH]; intros payload w.
  - simpl. now rewrite printed_nil.
  - cbn [for_each]. unfold bind at 1. rewrite find_body_step. cbn [find_from].
    destruct (occurrences (self_molecule w) value) as [[|m ms]|e].
    + apply IH.
    + rewrite IH. simpl self_molecule.
      destruct (find_from (self_molecule w) lib _) as [r lines]. simpl.
      now rewrite printed_printed.
    + simpl. now rewrite printed_nil.
Qed.

(** The finder is [find_from] on the whole library from the empty payload. *)
Lemma find_r_groups_find_from (w : world) :
  find_r_groups w =
  (fst (find_from (self_molecule w) (R_GROUPS w) []),
   printed w (snd (find_from (self_molecule w) (R_GROUPS w) []))).
Proof.
  unfold find_r_groups, bind, read_R_GROUPS, items. apply find_loop.
Qed.

(** With a molecule and patterns that parse, the pass succeeds: it stores
    the entries that hit, in order, and prints one line for each. *)
Lemma find_from_parsed (g : Mol) (lib payload : dict entry) :
  Forall pattern_parses lib ->
  find_from (Some g) lib payload =
  (Ok (fold_left store (filter (hit (Some g)) lib) payload),
   map (line_of (Some g)) (filter (hit (Some g)) lib)).
Proof.
  revert payload. induction lib as [|[key value] lib IH];
    intros payload Hall; [reflexivity|].
  inversion Hall as [|x l Hp Hl]; subst.
  unfold pattern_parses in Hp. cbn [snd] in Hp.
  destruct (MolFromSmarts (smarts_of value)) as [q|] eqn:Eq; [|contradiction].
  assert (Hocc : occurrences (Some g) value = Ok (SubstructMatch g q false)).
  { unfold occurrences, GetSubstructMatches. now rewrite Eq. }
  assert (Hhit : hit (Some g) (key, value) =
                 match SubstructMatch g q false with [] => false | _ => true end).
  { unfold hit. cbn [snd]. now rewrite Hocc. }
  cbn [find_from filter]. rewrite Hocc, Hhit.
  destruct (SubstructMatch g q false) as [|m ms] eqn:Em.
  - apply IH. exact Hl.
  - rewrite (IH _ Hl). cbn [map fold_left].
    unfold line_of at 2, count. unfold store at 2. cbn [fst snd]. rewrite Hocc.
    destruct value; reflexivity.
Qed.

(** One pattern that does not parse stops the pass with [ArgumentError]. *)
Lemma find_from_unparsed (g : Mol) (lib payload : dict entry) :
  Exists (fun kv => MolFromSmarts (smarts_of (snd kv)) = None) lib ->
  fst (find_from (Some g) lib payload) = argument_error "Mol.GetSubstructMatches".
Proof.
  revert payload. induction lib as [|[key value] lib IH]; intros payload Hex.
  - inversion Hex.
  - cbn [find_from]. unfold occurrences at 1, GetSubstructMatches.
    destruct (MolFromSmarts (smarts_of value)) as [q|] eqn:Eq.
    + assert (Hex' : Exists (fun kv => MolFromSmarts (smarts_of (snd kv)) = None) lib).
      { inversion Hex as [x l Hx|x l Hl]; subst; [|exact Hl].
        cbn [snd] in Hx. rewrite Eq in Hx. discriminate. }
      destruct (SubstructMatch g q false) as [|m ms]; [now apply IH|].
      specialize (IH (dict_set key (smiles_of value, smarts_of value) payload) Hex').
      destruct (find_from (Some g) lib _) as [r lines]. exact IH.
    + reflexivity.
Qed.

Lemma find_from_ok_parses (g : Mol) (lib payload p : dict entry) :
  fst (find_from (Some g) lib payload) = Ok p -> Forall pattern_parses lib.
Proof.
  intros Hok. apply Forall_forall. intros kv Hin Hnone.
  assert (Hex : Exists (fun kv => MolFromSmarts (smarts_of (snd kv)) = None) lib).
  { apply Exists_exists. exists kv. split; assumption. }
  rewrite (find_from_unparsed g lib payload Hex) in Hok. discriminate.
Qed.

(** Without [self.molecule] the first entry already raises. *)
Lemma find_from_no_molecule (lib payload : dict entry) :
  lib <> [] -> find_from None lib payload = (Raise no_molecule, []).
Proof. destruct lib as [|[key value] lib]; [congruence|reflexivity]. Qed.

Lemma filter_hit_keys (sm : option Mol) (lib : dict entry) :
  NoDup (keys lib) -> NoDup (keys ([] ++ filter (hit sm) lib)).
Proof. intros H. simpl. now apply NoDup_keys_filter. Qed.

(** The successful finder run, in full. *)
Lemma find_r_groups_ok (w w' : world) (g : Mol) (payload : dict entry) :
  self_molecule w = Some g ->
  NoDup (keys (R_GROUPS w)) ->
  find_r_groups w = (Ok payload, w') ->
  payload = filter (hit (Some g)) (R_GROUPS w)
  /\ w' = printed w (map (line_of (Some g)) payload)
  /\ Forall pattern_parses (R_GROUPS w).
Proof.
  intros Hg Hnd Hrun. rewrite find_r_groups_find_from, Hg in Hrun.
  assert (Hp : Forall pattern_parses (R_GROUPS w)).
  { apply (find_from_ok_parses g (R_GROUPS w) [] payload).
    now inversion Hrun. }
  rewrite (find_from_parsed g _ [] Hp) in Hrun. cbn [fst snd] in Hrun.
  unfold store in Hrun.
  rewrite (fold_dict_set_fresh _ _ _ (filter_hit_keys (Some g) _ Hnd)) in Hrun.
  simpl in Hrun. inversion Hrun; subst. auto.
Qed.

(** The finder succeeds when there is a molecule and every pattern parses. *)
Lemma find_r_groups_total (w : world) (g : Mol) :
  self_molecule w = Some g ->
  Forall pattern_parses (R_GROUPS w) ->
  exists payload w', find_r_groups w = (Ok payload, w').
Proof.
  intros Hg Hp. rewrite find_r_groups_find_from, Hg.
  rewrite (find_from_parsed g _ [] Hp). do 2 eexists. reflexivity.
Qed.

End FinderLoop.

(** ** The two methods together *)

Section PipelineFacts.
Context {rdkit : RDKit}.

Lemma list_sum_const (A : Type) (f : A -> nat) (l : list A) (c : nat) :
  (forall x, In x l -> f x = c) -> list_sum (map f l) = length l * c.
Proof.
  induction l as [|a l IH]; simpl; intros H; [reflexivity|].
  rewrite H by now left. rewrite IH; [reflexivity|].
  intros x Hx. apply H. now right.
Qed.

Lemma app_one_neq (A : Type) (l : list A) (x : A) : l ++ [x] <> l.
Proof.
  intros H. apply (f_equal (@length A)) in H.
  rewrite length_app in H. simpl in H. lia.
Qed.

Lemma enumerator_ok_length (w w' : world) (found : dict entry) (out : list Mol) :
  r_group_enumerator found w = (Ok out, w') ->
  w' = w /\
  Forall2 (fun p d => rewrite_pair (self_molecule w) p = Ok d)
          (pairs found (R_GROUPS w)) out.
Proof.
  rewrite r_group_enumerator_collect. intros H. injection H as Hc Hw.
  split; [now symmetry|].
  destruct (collect_ok _ _ _ _ Hc) as [ds [Hout Hall]].
  simpl in Hout. subst ds. exact Hall.
Qed.

(** A derivative is the head of the tuple one replace-all call returns. *)
Lemma rewrite_ok (sm : option Mol) (value candidate : entry) (d : Mol) :
  rewrite sm value candidate = Ok d ->
  exists g q r rest,
    sm = Some g
    /\ MolFromSmarts (smarts_of value) = Some q
    /\ MolFromSmiles (smiles_of candidate) = Some r
    /\ replaceSubstructs g q r true = Ok (d :: rest).
Proof.
  unfold rewrite, ReplaceSubstructs, argument_error.
  destruct sm as [g|]; [|discriminate].
  destruct (MolFromSmarts (smarts_of value)) as [q|]; [|discriminate].
  destruct (MolFromSmiles (smiles_of candidate)) as [r|]; [|discriminate].
  destruct (replaceSubstructs g q r true) as [[|d' rest]|e] eqn:E;
    simpl; try discriminate.
  intros H. injection H as ->. exists g, q, r, rest. auto.
Qed.

(** The finder's result whether or not [self.molecule] is there. *)
Lemma find_r_groups_result (w w' : world) (payload : dict entry) :
  NoDup (keys (R_GROUPS w)) ->
  find_r_groups w = (Ok payload, w') ->
  payload = filter (hit (self_molecule w)) (R_GROUPS w)
  /\ w' = printed w (map (line_of (self_molecule w)) payload).
Proof.
  intros Hnd Hrun. destruct (self_molecule w) as [g|] eqn:Eg.
  - destruct (find_r_groups_ok w w' g payload Eg Hnd Hrun) as [H1 [H2 _]].
    now split.
  - rewrite find_r_groups_find_from, Eg in Hrun.
    destruct (R_GROUPS w) as [|kv lib] eqn:El.
    + simpl in Hrun. injection Hrun as <- <-. split; reflexivity.
    + rewrite find_from_no_molecule in Hrun by discriminate.
      discriminate.
Qed.

Lemma main_pipeline_ok (w w' : world) (out : list Mol) :
  NoDup (keys (R_GROUPS w)) ->
  main_pipeline w = (Ok out, w') ->
  let payload := filter (hit (self_molecule w)) (R_GROUPS w) in
  w' = printed w (map (line_of (self_molecule w)) payload)
  /\ r_group_enumerator payload w' = (Ok out, w').
Proof.
  intros Hnd Hrun payload. unfold main_pipeline, bind in Hrun.
  destruct (find_r_groups w) as [[pf|e] w1] eqn:Ef; [|discriminate].
  destruct (find_r_groups_result w w1 pf Hnd Ef) as [Hpf Hw1].
  fold payload in Hpf. subst pf.
  destruct (enumerator_ok_length _ _ _ _ Hrun) as [Hw _]. subst w'.
  split; [exact Hw1|exact Hrun].
Qed.

(** An entry hits when its pattern parses and the un-uniquified match
    sequence on the molecule is not empty. *)
Lemma hit_true (sm : option Mol) (kv : string * entry) :
  hit sm kv = true <->
  exists g q, sm = Some g /\ MolFromSmarts (pattern_text kv) = Some q
              /\ SubstructMatch g q false <> [].
Proof.
  unfold hit, occurrences, GetSubstructMatches, argument_error, pattern_text.
  split.
  - destruct sm as [g|]; [|discriminate].
    destruct (MolFromSmarts (smarts_of (snd kv))) as [q|]; [|discriminate].
    destruct (SubstructMatch g q false) eqn:E; [discriminate|].
    intros _. exists g, q. rewrite E. repeat split; discriminate.
  - intros [g [q [-> [-> Hne]]]].
    destruct (SubstructMatch g q false); [contradiction|reflexivity].
Qed.

Lemma find_from_stops (g : Mol) (l1 l2 payload : dict entry)
      (key : string) (value : entry) :
  Forall pattern_parses l1 ->
  MolFromSmarts (smarts_of value) = None ->
  find_from (Some g) (l1 ++ (key, value) :: l2) payload =
  (argument_error "Mol.GetSubstructMatches",
   map (line_of (Some g)) (filter (hit (Some g)) l1)).
Proof.
  intros Hall Hnone. revert payload.
  induction Hall as [|[k v] l1 Hp Hl IH]; intros payload.
  - simpl. unfold occurrences, GetSubstructMatches. now rewrite Hnone.
  - unfold pattern_parses in Hp. cbn [snd] in Hp.
    destruct (MolFromSmarts (smarts_of v)) as [q|] eqn:Eq; [|contradiction].
    assert (Hocc : occurrences (Some g) v = Ok (SubstructMatch g q false)).
    { unfold occurrences, GetSubstructMatches. now rewrite Eq. }
    assert (Hhit : hit (Some g) (k, v) =
                   match SubstructMatch g q false with [] => false | _ => true end).
    { unfold hit. cbn [snd]. now rewrite Hocc. }
    rewrite <- app_comm_cons. cbn [find_from filter]. rewrite Hocc, Hhit.
    destruct (SubstructMatch g q false) as [|m ms] eqn:Em.
    + apply IH.
    + rewrite IH. cbn [map]. unfold line_of at 2, count. cbn [fst snd].
      rewrite Hocc. reflexivity.
Qed.

(** With pairwise distinct pattern texts every found entry has all library
    entries but one as candidates. *)
Lemma length_pairs_distinct (found lib : dict entry) :
  NoDup (map pattern_text lib) ->
  incl (map pattern_text found) (map pattern_text lib) ->
  length (pairs found lib) = length found * (length lib - 1).
Proof.
  intros Hnd Hincl. rewrite length_pairs. apply list_sum_const.
  intros f Hf. apply (filter_other_present _ pattern_text); [exact Hnd|].
  apply Hincl. now apply (in_map pattern_text).
Qed.

End PipelineFacts.

(** * The claims *)

Section OutputLength.
Context {rdkit : RDKit}.

(** C1.  When the enumerator returns, its output has as many derivatives as
    the sum, over the found entries, of the number of library entries whose
    pattern text differs from the found entry's; with pairwise distinct
    pattern texts in the library and every found text among them that is
    k * (m - 1), and 2 for found = {A}, library = {A, B, C}; the output is
    not empty when something was found and two library entries differ in
    their pattern text.  The same count k * (m - 1) holds for the finder
    followed by the enumerator, k being the number of entries that occur.
    The enumerator does return when every rewrite it has to make
    succeeds. *)
Theorem C1_enumerator_output_length (w : world) (found : dict entry) :
  let lib := R_GROUPS w in
  (forall out w', r_group_enumerator found w = (Ok out, w') ->
     length out =
       list_sum (map (fun f =>
                   length (filter (fun c => negb (String.eqb (pattern_text c)
                                                             (pattern_text f)))
                                  lib)) found)
     /\ (NoDup (map pattern_text lib) ->
         incl (map pattern_text found) (map pattern_text lib) ->
         length out = length found * (length lib - 1))
     /\ (forall a b c, found = [a] -> lib = [a; b; c] ->
         NoDup [pattern_text a; pattern_text b; pattern_text c] ->
         length out = 2)
     /\ (found <> [] ->
         (exists c1 c2, In c1 lib /\ In c2 lib
                        /\ pattern_text c1 <> pattern_text c2) ->
         out <> []))
  /\ (forall out w', main_pipeline w = (Ok out, w') ->
      NoDup (keys lib) -> NoDup (map pattern_text lib) ->
      length out = length (filter (hit (self_molecule w)) lib) * (length lib - 1))
  /\ (Forall (fun p => is_ok (rewrite_pair (self_molecule w) p) = true)
             (pairs found lib) ->
      exists out, r_group_enumerator found w = (Ok out, w)).
Proof.
  intros lib. split; [|split].
  - intros out w' Hrun.
    destruct (enumerator_ok_length _ _ _ _ Hrun) as [_ Hall].
    apply Forall2_length in Hall. fold lib in Hall.
    assert (Hsum : length out =
              list_sum (map (fun f =>
                   length (filter (fun c => negb (String.eqb (pattern_text c)
                                                             (pattern_text f)))
                                  lib)) found)).
    { rewrite <- Hall. apply length_pairs. }
    assert (Hkm : NoDup (map pattern_text lib) ->
                  incl (map pattern_text found) (map pattern_text lib) ->
                  length out = length found * (length lib - 1)).
    { intros Hnd Hincl. rewrite <- Hall.
      now apply length_pairs_distinct. }
    split; [exact Hsum|]. split; [exact Hkm|]. split.
    + intros a b c Hfound Hlib Hnd.
      rewrite Hkm.
      * rewrite Hfound, Hlib. reflexivity.
      * rewrite Hlib. exact Hnd.
      * rewrite Hfound, Hlib. intros x [Hx|[]]. now left.
    + intros Hne [c1 [c2 [H1 [H2 Hd]]]] Hnil.
      destruct found as [|f found']; [congruence|].
      rewrite Hnil in Hsum. simpl in Hsum.
      assert (Hf : filter (fun c => negb (String.eqb (pattern_text c)
                                                     (pattern_text f))) lib <> []).
      { apply (filter_other_two _ pattern_text (pattern_text f) lib c1 c2 H1 H2 Hd). }
      destruct (filter _ lib); [congruence|]. simpl in Hsum. lia.
  - intros out w' Hrun Hkeys Hnd.
    destruct (main_pipeline_ok w w' out Hkeys Hrun) as [Hw' Henum].
    destruct (enumerator_ok_length _ _ _ _ Henum) as [_ Hall].
    apply Forall2_length in Hall. rewrite <- Hall, Hw'.
    change (R_GROUPS (printed w _)) with lib.
    apply length_pairs_distinct; [exact Hnd|].
    intros x Hx. apply in_map_iff in Hx. destruct Hx as [kv [<- Hkv]].
    apply filter_In in Hkv. apply in_map. apply Hkv.
  - intros Hall. rewrite r_group_enumerator_collect.
    destruct (collect_total _ _ [] Hall) as [out Hout].
    exists out. fold lib. now rewrite Hout.
Qed.

End OutputLength.

Section OutputLengthOnChains.
Import ChainChem.

(** C1 on the chain chemistry: found = {alcohol}, library = {alcohol,
    amine, thiol}; two derivatives. *)
Lemma C1_enumerator_output_length_witness :
  let w := world_of lib_abc "COCCO" in
  let found := [("alcohol", ("O", "O"))] in
  exists out, r_group_enumerator found w = (Ok out, w) /\ length out = 2.
Proof.
  intros w found.
  destruct (C1_enumerator_output_length w found) as [Hlen [_ Hret]].
  destruct Hret as [out Hout].
  - vm_compute. repeat constructor.
  - exists out. split; [exact Hout|].
    destruct (Hlen out w Hout) as [_ [_ [H3 _]]].
    apply (H3 ("alcohol", ("O", "O")) ("amine", ("N", "N")) ("thiol", ("S", "S")));
      try reflexivity.
    repeat constructor; simpl; intuition discriminate.
Defined.

End OutputLengthOnChains.

Section SkipRule.
Context {rdkit : RDKit}.

(** C2.  In one step of the inner loop the candidate is passed over
    (the list of derivatives is left as it was) exactly when its pattern
    text is the same string as the found entry's.  With another text the
    step appends one derivative or raises; this holds too when both texts
    parse to the same pattern.  Any number of candidates that share the
    found entry's text are all passed over. *)
Theorem C2_skip_iff_same_pattern_text
        (w : world) (value : entry) (c : string * entry) (acc : list Mol) :
  let smarts_mol := MolFromSmarts (smarts_of value) in
  let step := enum_inner value smarts_mol c acc w in
  (step = (Ok acc, w) <-> smarts_of (snd c) = smarts_of value)
  /\ (smarts_of (snd c) <> smarts_of value ->
      step = (match rewrite (self_molecule w) value (snd c) with
              | Ok d => Ok (acc ++ [d])
              | Raise e => Raise e
              end, w))
  /\ (MolFromSmarts (smarts_of (snd c)) = smarts_mol ->
      smarts_of (snd c) <> smarts_of value ->
      step <> (Ok acc, w))
  /\ (forall lib : dict entry,
      Forall (fun c' => smarts_of (snd c') = smarts_of value) lib ->
      for_each lib (enum_inner value smarts_mol) acc w = (Ok acc, w)).
Proof.
  intros smarts_mol step.
  assert (Hstep : step =
            (if skipped value c then Ok acc
             else match rewrite (self_molecule w) value (snd c) with
                  | Ok d => Ok (acc ++ [d])
                  | Raise e => Raise e
                  end, w)).
  { unfold step, smarts_mol. rewrite (enum_inner_step EmptyString). reflexivity. }
  assert (Hiff : step = (Ok acc, w) <-> smarts_of (snd c) = smarts_of value).
  { rewrite Hstep. unfold skipped.
    destruct (String.eqb_spec (smarts_of (snd c)) (smarts_of value)) as [Heq|Hne].
    - tauto.
    - split; [|contradiction]. intros H.
      destruct (rewrite (self_molecule w) value (snd c)); [|discriminate].
      injection H as H. exfalso. exact (app_one_neq _ _ _ H). }
  split; [exact Hiff|]. split; [|split].
  - intros Hne. rewrite Hstep. unfold skipped.
    destruct (String.eqb_spec (smarts_of (snd c)) (smarts_of value));
      [contradiction|reflexivity].
  - intros _ Hne H. apply Hiff in H. contradiction.
  - intros lib Hall. unfold smarts_mol.
    rewrite (enum_inner_loop EmptyString).
    replace (candidates lib value) with (@nil (string * entry)); [reflexivity|].
    symmetry. unfold candidates. induction Hall as [|c' lib' Hc' _ IH]; simpl.
    + reflexivity.
    + unfold skipped at 1. rewrite Hc', String.eqb_refl. simpl. exact IH.
Qed.

End SkipRule.

Section SkipRuleOnChains.
Import ChainChem.

(** C2 on the chain chemistry: for the found alcohol (pattern O) the
    entries alcohol and hydroxyl, both with the text O, are passed over;
    oxy, whose text [O] parses to the same pattern, is not. *)
Lemma C2_skip_iff_same_pattern_text_witness :
  let w := world_of lib_dup "CCO" in
  let value := ("O", "O") in
  enum_inner value (MolFromSmarts "O") ("hydroxyl", ("O", "O")) [] w = (Ok [], w)
  /\ MolFromSmarts "[O]" = MolFromSmarts "O"
  /\ enum_inner value (MolFromSmarts "O") ("oxy", ("O", "[O]")) [] w <> (Ok [], w)
  /\ for_each [("alcohol", ("O", "O")); ("hydroxyl", ("O", "O"))]
              (enum_inner value (MolFromSmarts "O")) [] w = (Ok [], w)
  /\ fst (r_group_enumerator [("alcohol", value)] w) = Ok ["CCO"; "CCN"].
Proof.
  intros w value.
  destruct (C2_skip_iff_same_pattern_text w value ("hydroxyl", ("O", "O")) [])
    as [Hskip [_ [_ Hall]]].
  destruct (C2_skip_iff_same_pattern_text w value ("oxy", ("O", "[O]")) [])
    as [_ [_ [Hsem _]]].
  split; [apply Hskip; reflexivity|].
  split; [reflexivity|].
  split; [apply Hsem; [reflexivity|discriminate]|].
  split; [apply Hall; repeat constructor|].
  reflexivity.
Defined.

End SkipRuleOnChains.

Section ReplaceAll.
Context {rdkit : RDKit}.

(** What the source shows of a derivative.  When the enumerator returns,
    its output lines up with the non-skipped (found entry, candidate entry)
    pairs, one element for each pair: the first molecule of the tuple a
    single call of ReplaceSubstructs returns on the base graph, the found
    entry's pattern and the candidate's fragment, with replaceAll set.
    What that molecule contains is RDKit's matter. *)
Lemma enumerator_output_heads
      (w w' : world) (found : dict entry) (out : list Mol) :
  r_group_enumerator found w = (Ok out, w') ->
  Forall2 (fun p d =>
             exists g q r rest,
               self_molecule w = Some g
               /\ MolFromSmarts (pattern_text (fst p)) = Some q
               /\ MolFromSmiles (smiles_of (snd (snd p))) = Some r
               /\ replaceSubstructs g q r true = Ok (d :: rest))
          (pairs found (R_GROUPS w)) out
  /\ length out = length (pairs found (R_GROUPS w))
  /\ (forall f c, In (f, c) (pairs found (R_GROUPS w)) <->
                  In f found /\ In c (R_GROUPS w)
                  /\ pattern_text c <> pattern_text f).
Proof.
  intros Hrun. destruct (enumerator_ok_length _ _ _ _ Hrun) as [_ Hall].
  split; [|split].
  - eapply Forall2_impl; [|exact Hall].
    intros p d Hp. apply rewrite_ok in Hp. exact Hp.
  - symmetry. eapply Forall2_length. exact Hall.
  - intros f c. apply in_pairs.
Qed.

End ReplaceAll.

Section Retention.
Context {rdkit : RDKit}.

(** C4 as the code has it.  With a molecule and unique library keys, when
    the finder returns: a key is in the mapping exactly when its pattern has
    a non-empty occurrence sequence on the graph; a retained entry holds the
    library's fragment text and pattern text and nothing else, and its
    occurrence count, the length of that sequence, is on the line printed
    for it; the finder does return when every pattern parses, whatever
    occurs, so an entry without occurrences is dropped without an error. *)
Theorem C4_finder_retains_hits (w : world) (g : Mol) :
  self_molecule w = Some g ->
  NoDup (keys (R_GROUPS w)) ->
  (forall payload w', find_r_groups w = (Ok payload, w') ->
     (forall key, In key (keys payload) <->
        exists value q, In (key, value) (R_GROUPS w)
                        /\ MolFromSmarts (smarts_of value) = Some q
                        /\ SubstructMatch g q false <> [])
     /\ (forall key value, In (key, value) payload ->
           In (key, value) (R_GROUPS w)
           /\ dict_get key payload = Some value
           /\ exists q, MolFromSmarts (smarts_of value) = Some q
                        /\ In (found_line key (length (SubstructMatch g q false)))
                              (stdout w'))
     /\ stdout w' = stdout w ++ map (line_of (Some g)) payload)
  /\ (Forall pattern_parses (R_GROUPS w) ->
      exists payload w', find_r_groups w = (Ok payload, w')).
Proof.
  intros Hg Hnd. split; [|apply (find_r_groups_total w g Hg)].
  intros payload w' Hrun.
  destruct (find_r_groups_ok w w' g payload Hg Hnd Hrun) as [Hpay [Hw' _]].
  assert (Hout : stdout w' = stdout w ++ map (line_of (Some g)) payload).
  { rewrite Hw'. reflexivity. }
  split; [|split; [|exact Hout]].
  - intros key. rewrite Hpay. unfold keys. rewrite in_map_iff. split.
    + intros [[k value] [Hk Hin]]. simpl in Hk. subst k.
      apply filter_In in Hin. destruct Hin as [Hin Hhit].
      apply hit_true in Hhit. destruct Hhit as [g' [q [Hg' [Hq Hne]]]].
      injection Hg' as <-. exists value, q. auto.
    + intros [value [q [Hin [Hq Hne]]]]. exists (key, value).
      split; [reflexivity|]. apply filter_In. split; [exact Hin|].
      apply hit_true. exists g, q. auto.
  - intros key value Hin.
    assert (Hin' := Hin). rewrite Hpay in Hin'.
    apply filter_In in Hin'. destruct Hin' as [Hlib Hhit].
    split; [exact Hlib|]. split.
    + apply dict_get_In; [|exact Hin].
      rewrite Hpay. apply NoDup_keys_filter. exact Hnd.
    + apply hit_true in Hhit. destruct Hhit as [g' [q [Hg' [Hq Hne]]]].
      injection Hg' as <-. exists q. split; [exact Hq|].
      rewrite Hout. apply in_or_app. right.
      apply in_map_iff. exists (key, value). split; [|exact Hin].
      unfold line_of, count, occurrences, GetSubstructMatches.
      unfold pattern_text in Hq. simpl in *. rewrite Hq. reflexivity.
Qed.

End Retention.

Section RetentionOnChains.
Import ChainChem.

(** C4, the claim as stated, fails: the retained entry does not carry its
    occurrence count.  The finder returns the same mapping for CCO and for
    COCCO, with one and with two occurrences of the pattern, so no function
    reads the count off a retained entry. *)
Lemma C4_entry_carries_count_counterexample :
  let w1 := world_of lib_abc "CCO" in
  let w2 := world_of lib_abc "COCCO" in
  fst (find_r_groups w1) = Ok [("alcohol", ("O", "O"))]
  /\ fst (find_r_groups w2) = Ok [("alcohol", ("O", "O"))]
  /\ count (self_molecule w1) ("alcohol", ("O", "O")) = 1
  /\ count (self_molecule w2) ("alcohol", ("O", "O")) = 2
  /\ ~ exists count_of : string * entry -> nat,
         forall (w : world) (payload : dict entry) (kv : string * entry),
           fst (find_r_groups w) = Ok payload -> In kv payload ->
           count_of kv = count (self_molecule w) kv.
Proof.
  intros w1 w2.
  split; [reflexivity|]. split; [reflexivity|].
  split; [reflexivity|]. split; [reflexivity|].
  intros [count_of H].
  assert (H1 := H w1 [("alcohol", ("O", "O"))] ("alcohol", ("O", "O"))
                  eq_refl (or_introl eq_refl)).
  assert (H2 := H w2 [("alcohol", ("O", "O"))] ("alcohol", ("O", "O"))
                  eq_refl (or_introl eq_refl)).
  rewrite H1 in H2. vm_compute in H2. discriminate.
Qed.

(** C4 as the code has it, on the chain chemistry: alcohol occurs twice in
    COCCO and is retained with its two texts, the count is on the printed
    line; amine does not occur and is dropped. *)
Lemma C4_finder_retains_hits_witness :
  let w := world_of lib_abc "COCCO" in
  find_r_groups w =
    (Ok [("alcohol", ("O", "O"))],
     printed w ["Found Functional Group: alcohol | Pattern Count: 2"])
  /\ (In "amine" (keys (R_GROUPS w))
      /\ ~ In "amine" (keys [("alcohol", ("O", "O"))]))
  /\ dict_get "alcohol" [("alcohol", ("O", "O"))] = Some ("O", "O")
  /\ exists payload w', find_r_groups w = (Ok payload, w').
Proof.
  intros w.
  assert (Hg : self_molecule w = Some "COCCO") by reflexivity.
  assert (Hnd : NoDup (keys (R_GROUPS w))).
  { repeat constructor; simpl; intuition discriminate. }
  destruct (C4_finder_retains_hits w "COCCO" Hg Hnd) as [Hok Htotal].
  assert (Hrun : find_r_groups w =
    (Ok [("alcohol", ("O", "O"))],
     printed w ["Found Functional Group: alcohol | Pattern Count: 2"]))
    by reflexivity.
  destruct (Hok _ _ Hrun) as [_ [Hentry _]].
  destruct (Hentry "alcohol" ("O", "O") (or_introl eq_refl)) as [_ [Hget _]].
  split; [exact Hrun|]. split.
  - split; [simpl; auto|]. simpl. intuition discriminate.
  - split; [exact Hget|]. apply Htotal.
    repeat constructor; discriminate.
Defined.

End RetentionOnChains.

Section Order.
Context {rdkit : RDKit}.

(** C5.  With unique library keys: the mapping the finder returns is the
    library, in its order, restricted to the entries with at least one
    occurrence; the enumerator's output follows the found entries in order
    and, for each, the whole library in order (minus the candidates with
    the found entry's pattern text), whether or not a candidate was found
    itself; so does the output of the finder followed by the enumerator. *)
Theorem C5_order_preserved (w : world) :
  NoDup (keys (R_GROUPS w)) ->
  let lib := R_GROUPS w in
  let visit (found : dict entry) :=
    flat_map (fun f =>
                map (pair f)
                    (filter (fun c => negb (String.eqb (pattern_text c)
                                                       (pattern_text f))) lib))
             found in
  (forall payload w1, find_r_groups w = (Ok payload, w1) ->
     payload = filter (hit (self_molecule w)) lib)
  /\ (forall found out w2, r_group_enumerator found w = (Ok out, w2) ->
        Forall2 (fun p d => rewrite_pair (self_molecule w) p = Ok d)
                (visit found) out
        /\ (forall f c, In f found -> In c lib ->
                        pattern_text c <> pattern_text f ->
                        In (f, c) (visit found)))
  /\ (forall out w3, main_pipeline w = (Ok out, w3) ->
        Forall2 (fun p d => rewrite_pair (self_molecule w) p = Ok d)
                (visit (filter (hit (self_molecule w)) lib)) out).
Proof.
  intros Hnd lib visit. split; [|split].
  - intros payload w1 Hrun.
    apply (find_r_groups_result w w1 payload Hnd Hrun).
  - intros found out w2 Hrun.
    destruct (enumerator_ok_length _ _ _ _ Hrun) as [_ Hall].
    split; [exact Hall|].
    intros f c Hf Hc Hne. apply (in_pairs found lib f c). auto.
  - intros out w3 Hrun.
    destruct (main_pipeline_ok w w3 out Hnd Hrun) as [Hw3 Henum].
    destruct (enumerator_ok_length _ _ _ _ Henum) as [_ Hall].
    rewrite Hw3 in Hall. exact Hall.
Qed.

End Order.

Section OrderOnChains.
Import ChainChem.

(** C5 on the chain chemistry: alcohol and thiol occur in SCCO, amine does
    not; the found entries keep the library order, and amine, though not
    found, is a candidate for both. *)
Lemma C5_order_preserved_witness :
  let w := world_of lib_abc "SCCO" in
  fst (find_r_groups w) = Ok [("alcohol", ("O", "O")); ("thiol", ("S", "S"))]
  /\ fst (main_pipeline w) = Ok ["SCCN"; "SCCS"; "OCCO"; "NCCO"]
  /\ forall out w3, main_pipeline w = (Ok out, w3) ->
       Forall2 (fun p d => rewrite_pair (self_molecule w) p = Ok d)
         [(("alcohol", ("O", "O")), ("amine", ("N", "N")));
          (("alcohol", ("O", "O")), ("thiol", ("S", "S")));
          (("thiol", ("S", "S")), ("alcohol", ("O", "O")));
          (("thiol", ("S", "S")), ("amine", ("N", "N")))] out.
Proof.
  intros w.
  assert (Hnd : NoDup (keys (R_GROUPS w))).
  { repeat constructor; simpl; intuition discriminate. }
  destruct (C5_order_preserved w Hnd) as [_ [_ Hpipe]].
  split; [reflexivity|]. split; [reflexivity|].
  intros out w3 Hrun. exact (Hpipe out w3 Hrun).
Defined.

End OrderOnChains.

Section Counting.
Context {rdkit : RDKit} {defaults : RDKitDefaults}.




End Counting.

Section CountingOnChains.
Import ChainChem.



End CountingOnChains.

Section FailedRewrite.
Context {rdkit : RDKit}.

(** C7 as the code has it.  The enumerator has no handler: the exception
    of the first pair whose rewrite fails leaves the method, no sequence is
    returned and nothing is printed. *)
Theorem C7_failed_rewrite_aborts
        (w : world) (found : dict entry)
        (ps1 ps2 : list ((string * entry) * (string * entry)))
        (p : (string * entry) * (string * entry)) (e : exn) :
  pairs found (R_GROUPS w) = ps1 ++ p :: ps2 ->
  Forall (fun p' => is_ok (rewrite_pair (self_molecule w) p') = true) ps1 ->
  rewrite_pair (self_molecule w) p = Raise e ->
  r_group_enumerator found w = (Raise e, w).
Proof.
  intros Hps Hall Hp. rewrite r_group_enumerator_collect, Hps, collect_app.
  destruct (collect_total _ _ [] Hall) as [acc Hacc]. rewrite Hacc.
  simpl. rewrite Hp. reflexivity.
Qed.

End FailedRewrite.

Section FailedRewriteOnChains.
Import ChainChem.

(** C7, the claim as stated, fails: the fragment of the second entry does
    not parse, so the pair (alcohol, broken) cannot be rewritten; the pair
    (alcohol, amine) can, and its derivative is CCN.  The enumerator does
    not return that derivative: it raises. *)
Lemma C7_skip_and_continue_counterexample :
  let w := world_of lib_bad_fragment "CCO" in
  let alcohol := ("alcohol", ("O", "O")) in
  let broken := ("broken", ("(", "S")) in
  let amine := ("amine", ("N", "N")) in
  pairs [alcohol] (R_GROUPS w) = [(alcohol, broken); (alcohol, amine)]
  /\ is_ok (rewrite_pair (self_molecule w) (alcohol, broken)) = false
  /\ rewrite_pair (self_molecule w) (alcohol, amine) = Ok "CCN"
  /\ fst (r_group_enumerator [alcohol] w) <> Ok ["CCN"]
  /\ ~ exists out, fst (r_group_enumerator [alcohol] w) = Ok out.
Proof.
  intros w alcohol broken amine.
  split; [reflexivity|]. split; [reflexivity|]. split; [reflexivity|].
  split; [discriminate|]. intros [out H]. discriminate.
Qed.

(** C7 as the code has it, on the same input: the ArgumentError of the
    pair (alcohol, broken) is the enumerator's result. *)
Lemma C7_failed_rewrite_aborts_witness :
  let w := world_of lib_bad_fragment "CCO" in
  r_group_enumerator [("alcohol", ("O", "O"))] w
  = (argument_error "rdkit.Chem.rdmolops.ReplaceSubstructs", w).
Proof.
  intros w.
  apply (C7_failed_rewrite_aborts w [("alcohol", ("O", "O"))] []
           [(("alcohol", ("O", "O")), ("amine", ("N", "N")))]
           (("alcohol", ("O", "O")), ("broken", ("(", "S")))).
  - reflexivity.
  - constructor.
  - reflexivity.
Defined.

End FailedRewriteOnChains.

Section MalformedPattern.
Context {rdkit : RDKit}.

(** C8 as the code has it.  The finder has no handler: at the first library
    entry whose pattern does not parse, the matcher is handed None and its
    ArgumentError leaves the method.  No mapping is returned; the entries
    before it have been tested (their lines are printed), the entries after
    it are never tested. *)
Theorem C8_malformed_pattern_aborts
        (w : world) (g : Mol) (l1 l2 : dict entry)
        (key : string) (value : entry) :
  self_molecule w = Some g ->
  R_GROUPS w = l1 ++ (key, value) :: l2 ->
  Forall pattern_parses l1 ->
  MolFromSmarts (smarts_of value) = None ->
  find_r_groups w =
  (argument_error "Mol.GetSubstructMatches",
   printed w (map (line_of (Some g)) (filter (hit (Some g)) l1))).
Proof.
  intros Hg Hlib Hall Hnone.
  rewrite find_r_groups_find_from, Hg, Hlib.
  rewrite (find_from_stops g l1 l2 [] key value Hall Hnone). reflexivity.
Qed.

End MalformedPattern.

Section MalformedPatternOnChains.
Import ChainChem.

(** C8, the claim as stated, fails: the second entry's pattern does not
    parse.  The finder does not return the other entries' results (amine
    and alcohol both occur in NCCO, as the library without the broken entry
    shows): it raises, after the line for amine, without testing alcohol. *)
Lemma C8_skip_malformed_entry_counterexample :
  let w := world_of lib_bad_pattern "NCCO" in
  let amine := ("amine", ("N", "N")) in
  let alcohol := ("alcohol", ("O", "O")) in
  MolFromSmarts "(" = None
  /\ fst (find_r_groups (world_of [amine; alcohol] "NCCO")) = Ok [amine; alcohol]
  /\ fst (find_r_groups w) <> Ok [amine; alcohol]
  /\ (~ exists payload, fst (find_r_groups w) = Ok payload)
  /\ stdout (snd (find_r_groups w))
     = ["Found Functional Group: amine | Pattern Count: 1"].
Proof.
  intros w amine alcohol.
  split; [reflexivity|]. split; [reflexivity|]. split; [discriminate|].
  split; [|reflexivity]. intros [payload H]. discriminate.
Qed.

(** C8 as the code has it, on the same input: the ArgumentError is the
    finder's result, after the one line for amine. *)
Lemma C8_malformed_pattern_aborts_witness :
  let w := world_of lib_bad_pattern "NCCO" in
  find_r_groups w =
  (argument_error "Mol.GetSubstructMatches",
   printed w ["Found Functional Group: amine | Pattern Count: 1"]).
Proof.
  intros w.
  apply (C8_malformed_pattern_aborts w "NCCO" [("amine", ("N", "N"))]
           [("alcohol", ("O", "O"))] "broken" ("S", "(")).
  - reflexivity.
  - reflexivity.
  - repeat constructor. discriminate.
  - reflexivity.
Defined.

End MalformedPatternOnChains.

Section Frame.
Context {rdkit : RDKit}.

(** C9.  Whatever the input and whether they return or raise, the finder,
    the enumerator and the two in sequence leave the library R_GROUPS and
    the base graph self.molecule as they found them: the finder changes
    the state by the lines it prints only, the enumerator not at all. *)
Theorem C9_inputs_unchanged (w : world) (found : dict entry) :
  let w1 := snd (find_r_groups w) in
  let w2 := snd (r_group_enumerator found w) in
  let w3 := snd (main_pipeline w) in
  (R_GROUPS w1 = R_GROUPS w /\ self_molecule w1 = self_molecule w
   /\ sanitized w1 = sanitized w /\ exists lines, w1 = printed w lines)
  /\ w2 = w
  /\ (R_GROUPS w3 = R_GROUPS w /\ self_molecule w3 = self_molecule w
      /\ sanitized w3 = sanitized w).
Proof.
  intros w1 w2 w3.
  assert (H1 : exists lines, w1 = printed w lines).
  { unfold w1. rewrite find_r_groups_find_from. simpl. eauto. }
  assert (H3 : w3 = w1).
  { unfold w3, w1, main_pipeline, bind.
    destruct (find_r_groups w) as [[pf|e] w'] eqn:Ef; [|reflexivity].
    rewrite r_group_enumerator_collect. reflexivity. }
  destruct H1 as [lines H1].
  split; [|split].
  - rewrite H1. repeat split. now exists lines.
  - unfold w2. now rewrite r_group_enumerator_collect.
  - rewrite H3, H1. repeat split.
Qed.

End Frame.

Section FrameOnChains.
Import ChainChem.

(** C9 on the chain chemistry: after finding and enumerating on COCCO the
    library and the molecule are the ones the run started with. *)
Lemma C9_inputs_unchanged_witness :
  let w := world_of lib_abc "COCCO" in
  R_GROUPS (snd (main_pipeline w)) = lib_abc
  /\ self_molecule (snd (main_pipeline w)) = Some "COCCO"
  /\ fst (main_pipeline w) = Ok ["CNCCN"; "CSCCS"].
Proof.
  intros w.
  destruct (C9_inputs_unchanged w []) as [_ [_ [HR [Hm _]]]].
  split; [exact HR|]. split; [exact Hm|]. reflexivity.
Defined.

End FrameOnChains.

Section Validation.
Context {rdkit : RDKit}.

(** C10.  For a molecule, as for any true argument, validate_molecule
    returns None and calls nothing: the state is unchanged.  The
    sanitization branch is the one taken for a false argument: SanitizeMol
    is called with that argument (None, or another non-molecule), what it
    raises is discarded by the return in the finally clause, and the
    argument itself is returned.  So SanitizeMol is never called with a
    molecule by this method. *)
Theorem C10_validate_molecule_skips_molecules (w : world) :
  (forall m : Mol, validate_molecule (PyMol m) w = (Ok PyNone, w))
  /\ (forall v, truthy v = true -> validate_molecule v w = (Ok PyNone, w))
  /\ (forall v, truthy v = false ->
        validate_molecule v w =
        (Ok v, mkWorld (R_GROUPS w) (self_molecule w) (stdout w)
                       (sanitized w ++ [v])))
  /\ (forall v, sanitized (snd (validate_molecule v w)) <> sanitized w <->
                truthy v = false)
  /\ (forall v m, In (PyMol m) (sanitized (snd (validate_molecule v w))) ->
                  In (PyMol m) (sanitized w)).
Proof.
  assert (Htrue : forall v, truthy v = true ->
                            validate_molecule v w = (Ok PyNone, w)).
  { intros v Hv. unfold validate_molecule. rewrite Hv. reflexivity. }
  assert (Hfalse : forall v, truthy v = false ->
        validate_molecule v w =
        (Ok v, mkWorld (R_GROUPS w) (self_molecule w) (stdout w)
                       (sanitized w ++ [v]))).
  { intros v Hv. unfold validate_molecule. rewrite Hv.
    destruct v; try discriminate; reflexivity. }
  split; [intros m; apply Htrue; reflexivity|].
  split; [exact Htrue|]. split; [exact Hfalse|]. split.
  - intros v. destruct (truthy v) eqn:Hv.
    + rewrite (Htrue v Hv). simpl. split; [congruence|discriminate].
    + rewrite (Hfalse v Hv). simpl. split; [reflexivity|].
      intros _ H. apply (f_equal (@length pyobj)) in H.
      rewrite length_app in H. simpl in H. lia.
  - intros v m. destruct (truthy v) eqn:Hv.
    + rewrite (Htrue v Hv). auto.
    + rewrite (Hfalse v Hv). simpl. intros Hin.
      apply in_app_or in Hin. destruct Hin as [Hin|[Heq|[]]]; [exact Hin|].
      subst v. discriminate.
Qed.

End Validation.

Section ValidationOnChains.
Import ChainChem.

(** C10 on the chain chemistry: the molecule CCO is not sanitized and None
    comes back; None is handed to SanitizeMol and comes back. *)
Lemma C10_validate_molecule_skips_molecules_witness :
  let w := world_of lib_abc "CCO" in
  validate_molecule (PyMol "CCO") w = (Ok PyNone, w)
  /\ fst (validate_molecule PyNone w) = Ok PyNone
  /\ sanitized (snd (validate_molecule PyNone w)) = [PyNone].
Proof.
  intros w.
  destruct (C10_validate_molecule_skips_molecules w) as [Hmol [_ [Hfalse _]]].
  split; [apply Hmol|]. rewrite (Hfalse PyNone eq_refl). split; reflexivity.
Defined.

End ValidationOnChains.

(** * Further properties

    The rest of the module: the file writer, the script, and what the two
    methods do at the edges. *)

(** ** Lookups in a dictionary *)

Section DictLookup.
Variable V : Type.

Lemma dict_get_set_same (k : string) (v : V) (d : dict V) :
  dict_get k (dict_set k v d) = Some v.
Proof.
  induction d as [|[k' v'] d IH]; simpl.
  - now rewrite String.eqb_refl.
  - destruct (String.eqb k' k) eqn:E; simpl; rewrite E; [reflexivity|exact IH].
Qed.

Lemma dict_get_set_other (k k' : string) (v : V) (d : dict V) :
  k <> k' -> dict_get k' (dict_set k v d) = dict_get k' d.
Proof.
  intros Hne. induction d as [|[k0 v0] d IH]; simpl.
  - destruct (String.eqb_spec k k'); [contradiction|reflexivity].
  - destruct (String.eqb_spec k0 k) as [->|Hk]; simpl.
    + destruct (String.eqb_spec k k'); [contradiction|reflexivity].
    + destruct (String.eqb k0 k'); [reflexivity|exact IH].
Qed.

Lemma dict_set_set_same (k : string) (v1 v2 : V) (d : dict V) :
  dict_set k v2 (dict_set k v1 d) = dict_set k v2 d.
Proof.
  induction d as [|[k' v'] d IH]; simpl.
  - now rewrite String.eqb_refl.
  - destruct (String.eqb k' k) eqn:E; simpl; rewrite E; [reflexivity|].
    now rewrite IH.
Qed.

End DictLookup.

(** ** File names *)

Section FileNames.

Lemma append_assoc (a b c : string) : ((a ++ b) ++ c = a ++ (b ++ c))%string.
Proof. induction a as [|x a IH]; simpl; [reflexivity|now rewrite IH]. Qed.

Lemma append_inj_l (s a b : string) : (s ++ a = s ++ b)%string -> a = b.
Proof.
  induction s as [|x s IH]; simpl; intros H; [exact H|].
  injection H as H. now apply IH.
Qed.

Lemma list_ascii_of_append (a b : string) :
  list_ascii_of_string (a ++ b)
  = (list_ascii_of_string a ++ list_ascii_of_string b)%list.
Proof. induction a as [|x a IH]; simpl; [reflexivity|now rewrite IH]. Qed.

Lemma list_ascii_of_string_inj (a b : string) :
  list_ascii_of_string a = list_ascii_of_string b -> a = b.
Proof.
  intros H. rewrite <- (string_of_list_ascii_of_string a),
              <- (string_of_list_ascii_of_string b).
  now rewrite H.
Qed.

Lemma append_inj_r (a b e : string) : (a ++ e = b ++ e)%string -> a = b.
Proof.
  intros H. apply list_ascii_of_string_inj.
  apply (f_equal list_ascii_of_string) in H.
  rewrite !list_ascii_of_append in H.
  now apply app_inv_tail in H.
Qed.

Lemma str_of_nat_inj (a b : nat) : str_of_nat a = str_of_nat b -> a = b.
Proof.
  unfold str_of_nat. intros H. apply Unsigned.to_uint_inj.
  assert (Hs : Some (Nat.to_uint a) = Some (Nat.to_uint b)).
  { rewrite <- (NilEmpty.usu (Nat.to_uint a)), <- (NilEmpty.usu (Nat.to_uint b)).
    now rewrite H. }
  now injection Hs.
Qed.

(** Numbered files of one name and extension have different paths. *)
Lemma numbered_path_inj (name ext : string) (a b : nat) :
  ((name ++ str_of_nat a) ++ ext = (name ++ str_of_nat b) ++ ext)%string ->
  a = b.
Proof.
  intros H. apply append_inj_r, append_inj_l in H. now apply str_of_nat_inj.
Qed.

End FileNames.

(** ** The file writer's loops *)

Section WriterLoops.
Context {rdkit : RDKit}.

Lemma write_each_spec (c : writer_class) (p : string) (ms cur : list Mol)
      (d : disk) :
  snd (write_each ms (mkWriter c p cur) (dict_set p (mkFile c cur) d))
  = dict_set p (mkFile c (cur ++ ms)) d.
Proof.
  revert cur. induction ms as [|i rest IH]; intros cur; simpl.
  - now rewrite app_nil_r.
  - rewrite dict_set_set_same. rewrite IH. now rewrite <- app_assoc.
Qed.

(** The fragmented loop stores the contents [split_from] lists, in files
    numbered from the current count on. *)
Lemma write_fragments_spec (c : writer_class) (ext : string) (self : FileWriter)
      (ms cur : list Mol) (k : nat) (d : disk) :
  let p := ((fw_name self ++ str_of_nat k) ++ ext)%string in
  snd (write_fragments c ext self ms k (mkWriter c p cur)
                       (dict_set p (mkFile c cur) d))
  = store_files c (fw_name self) ext k
                (split_from (fw_fragmentation self) cur ms) d.
Proof.
  revert cur k d. induction ms as [|i rest IH]; intros cur k d; [reflexivity|].
  cbn [write_fragments split_from]. unfold NumMols. cbn [written].
  destruct (int_eq (length cur) (fw_fragmentation self)).
  - unfold close, open_writer, write. cbn [writer_of path written app].
    rewrite dict_set_set_same. rewrite Nat.add_1_r.
    rewrite (IH [i] (S k)). reflexivity.
  - unfold write. cbn [writer_of path written].
    rewrite dict_set_set_same. apply IH.
Qed.

Lemma int_eq_batch (n : nat) (v : pyobj) :
  truthy v = true ->
  int_eq n v = match batch_size v with
               | Some b => Nat.eqb n b
               | None => false
               end.
Proof.
  destruct v as [| m | [|] | z | s]; simpl; try reflexivity; try discriminate.
  - intros _. destruct (Nat.eqb_spec n 1) as [->|Hne]; [reflexivity|].
    apply Z.eqb_neq. lia.
  - intros Hz. destruct (Z.ltb_spec 0 z) as [Hpos|Hneg].
    + destruct (Nat.eqb_spec n (Z.to_nat z)) as [->|Hne].
      * apply Z.eqb_eq. lia.
      * apply Z.eqb_neq. lia.
    + apply Z.eqb_neq. destruct (Z.eqb_spec z 0); [discriminate|]. lia.
Qed.

Lemma batch_size_pos (v : pyobj) (b : nat) : batch_size v = Some b -> 1 <= b.
Proof.
  destruct v as [| m | [|] | z | s]; simpl; try discriminate.
  - intros H. injection H as <-. lia.
  - destruct (Z.ltb_spec 0 z) as [Hpos|Hneg]; [|discriminate].
    intros Hb. injection Hb as <-. lia.
Qed.

Lemma split_from_concat (v : pyobj) (cur ms : list Mol) :
  concat (split_from v cur ms) = cur ++ ms.
Proof.
  revert cur. induction ms as [|i rest IH]; intros cur; simpl.
  - reflexivity.
  - destruct (int_eq (length cur) v); simpl; rewrite IH.
    + reflexivity.
    + now rewrite <- app_assoc.
Qed.

Lemma split_from_no_batch (v : pyobj) (cur ms : list Mol) :
  truthy v = true -> batch_size v = None ->
  split_from v cur ms = [cur ++ ms].
Proof.
  intros Hv Hb. revert cur. induction ms as [|i rest IH]; intros cur; simpl.
  - now rewrite app_nil_r.
  - rewrite (int_eq_batch _ _ Hv), Hb. rewrite IH. now rewrite <- app_assoc.
Qed.

(** With a batch size [b]: every file holds at most [b] molecules, every
    file but the last exactly [b], and none is empty. *)
Lemma split_from_sizes (v : pyobj) (b : nat) (cur ms : list Mol) :
  truthy v = true -> batch_size v = Some b ->
  1 <= length cur <= b ->
  let files := split_from v cur ms in
  Forall (fun f => 1 <= length f <= b) files
  /\ (forall k f, nth_error files k = Some f -> S k < length files ->
                  length f = b)
  /\ b * (length files - 1) < length cur + length ms <= b * length files.
Proof.
  intros Hv Hb. revert cur. induction ms as [|i rest IH]; intros cur Hcur.
  - simpl. split; [repeat constructor; lia|]. split; [|lia].
    intros k f Hk Hlt. simpl in Hlt. lia.
  - cbn [split_from]. rewrite (int_eq_batch _ _ Hv), Hb.
    destruct (Nat.eqb_spec (length cur) b) as [Heq|Hne].
    + destruct (IH [i]) as [Hall [Hfull Hcount]]; [simpl; lia|].
      cbn zeta. split; [constructor; [lia|exact Hall]|]. split.
      * intros [|k] f Hk Hlt; simpl in Hk.
        -- injection Hk as <-. exact Heq.
        -- apply (Hfull k f Hk). simpl in Hlt. lia.
      * simpl length in *. nia.
    + destruct (IH (cur ++ [i])) as [Hall [Hfull Hcount]].
      { rewrite length_app. simpl. lia. }
      cbn zeta. split; [exact Hall|]. split; [exact Hfull|].
      rewrite length_app in Hcount. simpl length in *. lia.
Qed.

(** A path that is none of the numbered ones is left as it was. *)
Lemma store_files_other (c : writer_class) (name ext p : string)
      (files : list (list Mol)) (k : nat) (d : disk) :
  (forall j, j < length files ->
             p <> ((name ++ str_of_nat (k + j)) ++ ext)%string) ->
  dict_get p (store_files c name ext k files d) = dict_get p d.
Proof.
  revert k d. induction files as [|f fs IH]; intros k d Hp; [reflexivity|].
  simpl. rewrite IH.
  - apply dict_get_set_other. intros Heq. apply (Hp 0); [simpl; lia|].
    now rewrite Nat.add_0_r.
  - intros j Hj. rewrite Nat.add_succ_comm. apply Hp. simpl. lia.
Qed.

(** The file numbered [k + j] holds the [j]-th content. *)
Lemma store_files_lookup (c : writer_class) (name ext : string)
      (files : list (list Mol)) (k j : nat) (f : list Mol) (d : disk) :
  nth_error files j = Some f ->
  dict_get ((name ++ str_of_nat (k + j)) ++ ext)%string
           (store_files c name ext k files d) = Some (mkFile c f).
Proof.
  revert k j d. induction files as [|f0 fs IH]; intros k j d Hj.
  - destruct j; discriminate.
  - destruct j as [|j]; simpl in Hj.
    + injection Hj as ->. simpl. rewrite store_files_other.
      * rewrite Nat.add_0_r. apply dict_get_set_same.
      * intros j _ Heq. apply numbered_path_inj in Heq. lia.
    + simpl. rewrite <- Nat.add_succ_comm. apply IH. exact Hj.
Qed.

(** Storing what is already there changes nothing. *)
Lemma dict_set_same_value (V : Type) (k : string) (v : V) (d : dict V) :
  dict_get k d = Some v -> dict_set k v d = d.
Proof.
  induction d as [|[k' v'] d IH]; simpl; [discriminate|].
  destruct (String.eqb k' k); intros Hget.
  - now injection Hget as ->.
  - now rewrite IH.
Qed.

Lemma store_files_again (c : writer_class) (name ext : string)
      (files : list (list Mol)) (k : nat) (d : disk) :
  (forall j f, nth_error files j = Some f ->
     dict_get ((name ++ str_of_nat (k + j)) ++ ext)%string d
     = Some (mkFile c f)) ->
  store_files c name ext k files d = d.
Proof.
  revert k. induction files as [|f fs IH]; intros k H; [reflexivity|].
  simpl. rewrite dict_set_same_value.
  - apply IH. intros j f' Hj. rewrite Nat.add_succ_comm. now apply H.
  - specialize (H 0 f eq_refl). now rewrite Nat.add_0_r in H.
Qed.

End WriterLoops.

(** ** The two writer methods *)

Section WriterMethods.
Context {rdkit : RDKit}.

Lemma sdf_writer_unfragmented (self : FileWriter) (d : disk) :
  truthy (fw_fragmentation self) = false ->
  sdf_writer self d
  = dict_set (fw_name self ++ ".sdf")%string
             (mkFile SDWriter (fw_molecules self)) d.
Proof.
  intros Hf. unfold sdf_writer. rewrite Hf. cbn [negb open_writer].
  pose proof (write_each_spec SDWriter (fw_name self ++ ".sdf")%string
                              (fw_molecules self) [] d) as H.
  destruct (write_each _ _ _) as [wr' d2]. exact H.
Qed.

Lemma txt_writer_unfragmented (self : FileWriter) (d : disk) :
  truthy (fw_fragmentation self) = false ->
  txt_writer self d
  = dict_set (fw_name self ++ ".txt")%string
             (mkFile SmilesWriter (fw_molecules self)) d.
Proof.
  intros Hf. unfold txt_writer. rewrite Hf. cbn [negb open_writer].
  pose proof (write_each_spec SmilesWriter (fw_name self ++ ".txt")%string
                              (fw_molecules self) [] d) as H.
  destruct (write_each _ _ _) as [wr' d2]. exact H.
Qed.

Lemma sdf_writer_fragmented (self : FileWriter) (d : disk) :
  truthy (fw_fragmentation self) = true ->
  sdf_writer self d
  = store_files SDWriter (fw_name self) ".sdf" 1
                (split_from (fw_fragmentation self) [] (fw_molecules self)) d.
Proof.
  intros Hf. unfold sdf_writer. rewrite Hf. cbn [negb open_writer].
  pose proof (write_fragments_spec SDWriter ".sdf" self (fw_molecules self)
                                   [] 1 d) as H.
  cbn zeta in H. destruct (write_fragments _ _ _ _ _ _ _) as [[k wr'] d2].
  exact H.
Qed.

Lemma txt_writer_fragmented (self : FileWriter) (d : disk) :
  truthy (fw_fragmentation self) = true ->
  txt_writer self d
  = store_files SmilesWriter (fw_name self) ".txt" 1
                (split_from (fw_fragmentation self) [] (fw_molecules self)) d.
Proof.
  intros Hf. unfold txt_writer. rewrite Hf. cbn [negb open_writer].
  pose proof (write_fragments_spec SmilesWriter ".txt" self (fw_molecules self)
                                   [] 1 d) as H.
  cbn zeta in H. destruct (write_fragments _ _ _ _ _ _ _) as [[k wr'] d2].
  exact H.
Qed.

(** The split of a non-empty list starts with its first molecule in the
    first file. *)
Lemma split_from_start (v : pyobj) (i : Mol) (rest : list Mol) :
  truthy v = true ->
  split_from v [] (i :: rest) = split_from v [i] rest.
Proof.
  intros Hv. cbn [split_from]. rewrite (int_eq_batch _ _ Hv). simpl length.
  destruct (batch_size v) as [b|] eqn:Hb; [|reflexivity].
  apply batch_size_pos in Hb.
  destruct (Nat.eqb_spec 0 b); [lia|reflexivity].
Qed.

End WriterMethods.

(** * Properties of the file writer *)

Section WriterProperties.
Context {rdkit : RDKit}.

(** X1.  Without a fragmentation (None, 0, False, the empty string) each
    writer method writes one file, name.sdf or name.txt: it holds all the
    molecules in their order, whatever was at that path before, and no
    other path of the disk is touched. *)
Theorem X1_unfragmented_one_file (self : FileWriter) (d : disk) :
  truthy (fw_fragmentation self) = false ->
  let sdf := (fw_name self ++ ".sdf")%string in
  let txt := (fw_name self ++ ".txt")%string in
  dict_get sdf (sdf_writer self d) = Some (mkFile SDWriter (fw_molecules self))
  /\ (forall p, p <> sdf -> dict_get p (sdf_writer self d) = dict_get p d)
  /\ dict_get txt (txt_writer self d)
     = Some (mkFile SmilesWriter (fw_molecules self))
  /\ (forall p, p <> txt -> dict_get p (txt_writer self d) = dict_get p d).
Proof.
  intros Hf sdf txt.
  rewrite (sdf_writer_unfragmented self d Hf),
          (txt_writer_unfragmented self d Hf).
  fold sdf txt. repeat split.
  - apply dict_get_set_same.
  - intros p Hp. apply dict_get_set_other. congruence.
  - apply dict_get_set_same.
  - intros p Hp. apply dict_get_set_other. congruence.
Qed.

(** X2.  With a fragmentation the molecules are spread over the files
    name1, name2, ... in their order: read one after the other the files
    give back the list of molecules, nothing lost and nothing twice.  Both
    methods split in the same way, and neither touches a path other than
    its numbered files. *)
Theorem X2_fragments_keep_every_molecule (self : FileWriter) (d : disk) :
  truthy (fw_fragmentation self) = true ->
  let sdf k := ((fw_name self ++ str_of_nat k) ++ ".sdf")%string in
  let txt k := ((fw_name self ++ str_of_nat k) ++ ".txt")%string in
  exists files : list (list Mol),
    concat files = fw_molecules self
    /\ 1 <= length files
    /\ (forall k f, nth_error files k = Some f ->
          dict_get (sdf (S k)) (sdf_writer self d) = Some (mkFile SDWriter f)
          /\ dict_get (txt (S k)) (txt_writer self d)
             = Some (mkFile SmilesWriter f))
    /\ (forall p, (forall k, k < length files -> p <> sdf (S k)) ->
                  dict_get p (sdf_writer self d) = dict_get p d)
    /\ (forall p, (forall k, k < length files -> p <> txt (S k)) ->
                  dict_get p (txt_writer self d) = dict_get p d).
Proof.
  intros Hf sdf txt.
  exists (split_from (fw_fragmentation self) [] (fw_molecules self)).
  rewrite (sdf_writer_fragmented self d Hf), (txt_writer_fragmented self d Hf).
  split; [apply split_from_concat|]. split.
  { destruct (fw_molecules self) as [|i rest]; [simpl; lia|].
    generalize (@nil Mol). revert i.
    induction rest as [|j rest IH]; intros i cur; cbn [split_from].
    - destruct (int_eq _ _); simpl; lia.
    - destruct (int_eq (length cur) _); [simpl; lia|]. apply IH. }
  split; [|split].
  - intros k f Hk. split.
    + apply (store_files_lookup SDWriter (fw_name self) ".sdf" _ 1 k f d Hk).
    + apply (store_files_lookup SmilesWriter (fw_name self) ".txt" _ 1 k f d Hk).
  - intros p Hp. apply store_files_other. intros j Hj. apply (Hp j Hj).
  - intros p Hp. apply store_files_other. intros j Hj. apply (Hp j Hj).
Qed.

(** X3.  With a batch size b (a positive int fragmentation, or True for 1)
    and at least one molecule, no numbered file is empty, none holds more
    than b molecules, and every file but the last holds exactly b. *)
Theorem X3_fragment_sizes (self : FileWriter) (d : disk) (b : nat) :
  truthy (fw_fragmentation self) = true ->
  batch_size (fw_fragmentation self) = Some b ->
  fw_molecules self <> [] ->
  let sdf k := ((fw_name self ++ str_of_nat k) ++ ".sdf")%string in
  exists files : list (list Mol),
    concat files = fw_molecules self
    /\ (forall k f, nth_error files k = Some f ->
          dict_get (sdf (S k)) (sdf_writer self d) = Some (mkFile SDWriter f))
    /\ Forall (fun f => 1 <= length f <= b) files
    /\ (forall k f, nth_error files k = Some f -> S k < length files ->
                    length f = b).
Proof.
  intros Hf Hb Hne sdf.
  exists (split_from (fw_fragmentation self) [] (fw_molecules self)).
  rewrite (sdf_writer_fragmented self d Hf).
  split; [apply split_from_concat|]. split.
  { intros k f Hk.
    apply (store_files_lookup SDWriter (fw_name self) ".sdf" _ 1 k f d Hk). }
  destruct (fw_molecules self) as [|i rest]; [congruence|].
  rewrite (split_from_start _ i rest Hf).
  assert (H1 : 1 <= length [i] <= b).
  { simpl. apply batch_size_pos in Hb. lia. }
  destruct (split_from_sizes _ b [i] rest Hf Hb H1) as [Hall [Hfull _]].
  split; [exact Hall|exact Hfull].
Qed.

(** X4.  With a batch size b the number n of files written for a non-empty
    list of molecules is the least with n * b molecules or more:
    b * (n - 1) < number of molecules <= b * n.  The file numbered n + 1 is
    not written. *)
Theorem X4_fragment_count (self : FileWriter) (d : disk) (b : nat) :
  truthy (fw_fragmentation self) = true ->
  batch_size (fw_fragmentation self) = Some b ->
  fw_molecules self <> [] ->
  let sdf k := ((fw_name self ++ str_of_nat k) ++ ".sdf")%string in
  exists n : nat,
    b * (n - 1) < length (fw_molecules self) <= b * n
    /\ (forall k, 1 <= k <= n ->
          exists f, dict_get (sdf k) (sdf_writer self d)
                    = Some (mkFile SDWriter f) /\ f <> [])
    /\ dict_get (sdf (S n)) (sdf_writer self d) = dict_get (sdf (S n)) d.
Proof.
  intros Hf Hb Hne sdf.
  rewrite (sdf_writer_fragmented self d Hf).
  destruct (fw_molecules self) as [|i rest] eqn:Hms; [congruence|].
  rewrite (split_from_start _ i rest Hf).
  assert (H1 : 1 <= length [i] <= b).
  { simpl. apply batch_size_pos in Hb. lia. }
  destruct (split_from_sizes _ b [i] rest Hf Hb H1) as [Hall [_ Hcount]].
  cbn zeta in Hcount.
  set (files := split_from (fw_fragmentation self) [i] rest) in *.
  exists (length files). split; [simpl length in *; lia|]. split.
  - intros k Hk. destruct (nth_error files (k - 1)) as [f|] eqn:Hnth.
    + exists f. split.
      * replace k with (1 + (k - 1)) at 1 by lia.
        apply (store_files_lookup SDWriter (fw_name self) ".sdf" _ 1 _ f d Hnth).
      * rewrite Forall_forall in Hall. apply nth_error_In in Hnth.
        specialize (Hall f Hnth). destruct f; [simpl in Hall; lia|discriminate].
    + apply nth_error_None in Hnth. lia.
  - apply store_files_other. intros j Hj Heq.
    apply numbered_path_inj in Heq. lia.
Qed.

(** X5.  A true fragmentation that equals no count (a negative int, a
    non-empty string, a molecule) never closes a file: all the molecules go
    to name1.  And with no molecules at all a fragmented writer still
    creates name1, empty. *)
Theorem X5_fragmentation_without_effect (self : FileWriter) (d : disk) :
  truthy (fw_fragmentation self) = true ->
  batch_size (fw_fragmentation self) = None \/ fw_molecules self = [] ->
  sdf_writer self d
  = dict_set ((fw_name self ++ str_of_nat 1) ++ ".sdf")%string
             (mkFile SDWriter (fw_molecules self)) d
  /\ txt_writer self d
     = dict_set ((fw_name self ++ str_of_nat 1) ++ ".txt")%string
                (mkFile SmilesWriter (fw_molecules self)) d.
Proof.
  intros Hf Hcase.
  rewrite (sdf_writer_fragmented self d Hf), (txt_writer_fragmented self d Hf).
  assert (Hsplit : split_from (fw_fragmentation self) [] (fw_molecules self)
                   = [fw_molecules self]).
  { destruct Hcase as [Hb|Hnil].
    - apply (split_from_no_batch _ [] _ Hf Hb).
    - rewrite Hnil. reflexivity. }
  rewrite Hsplit. split; reflexivity.
Qed.

(** X7.  Writing a second time changes nothing: the files are written
    anew, not added to. *)
Theorem X7_writing_twice_is_writing_once (self : FileWriter) (d : disk) :
  sdf_writer self (sdf_writer self d) = sdf_writer self d
  /\ txt_writer self (txt_writer self d) = txt_writer self d.
Proof.
  destruct (truthy (fw_fragmentation self)) eqn:Hf.
  - rewrite !(sdf_writer_fragmented self _ Hf), !(txt_writer_fragmented self _ Hf).
    split; apply store_files_again; intros j f Hj;
      apply store_files_lookup; exact Hj.
  - rewrite !(sdf_writer_unfragmented self _ Hf),
            !(txt_writer_unfragmented self _ Hf).
    split; apply dict_set_set_same.
Qed.

End WriterProperties.


(** ** The constructor's dispatch and the script *)

Section ScriptProperties.
Context {rdkit : RDKit}.

Lemma sdf_is_not_txt (a b : string) : (a ++ ".sdf" <> b ++ ".txt")%string.
Proof.
  intros H. apply (f_equal list_ascii_of_string) in H.
  rewrite !list_ascii_of_append in H.
  apply (f_equal (@rev Ascii.ascii)) in H.
  rewrite !rev_app_distr in H. simpl in H. discriminate.
Qed.

Lemma split_singletons (i : Mol) (rest : list Mol) :
  split_from (PyInt 1) [i] rest = map (fun m => [m]) (i :: rest).
Proof.
  revert i. induction rest as [|j rest IH]; intros i; [reflexivity|].
  cbn [split_from]. simpl int_eq. rewrite IH. reflexivity.
Qed.

(** X6.  The constructor writes with sdf_writer for the option sdf and with
    txt_writer for the option txt.  For any other option it raises
    AttributeError and writes nothing. *)
Theorem X6_only_sdf_and_txt_are_written
        (name : string) (molecules : list Mol) (option : string)
        (fragementation : pyobj) (d : disk) :
  let self := mkFileWriter molecules name option fragementation in
  (option = "sdf" ->
   FileWriter_init name molecules option fragementation d
   = (Ok self, sdf_writer self d))
  /\ (option = "txt" ->
      FileWriter_init name molecules option fragementation d
      = (Ok self, txt_writer self d))
  /\ (option <> "sdf" -> option <> "txt" ->
      exists e, FileWriter_init name molecules option fragementation d
                = (Raise e, d)
                /\ exn_cls e = AttributeError).
Proof.
  intros self. split; [|split].
  - intros ->. reflexivity.
  - intros ->. reflexivity.
  - intros Hsdf Htxt. unfold FileWriter_init, getattr_FileWriter.
    cbn [fw_option].
    destruct (String.eqb_spec (option ++ "_writer") "sdf_writer") as [H|_].
    { exfalso. apply Hsdf. apply (append_inj_r option "sdf" "_writer"). exact H. }
    destruct (String.eqb_spec (option ++ "_writer") "txt_writer") as [H|_].
    { exfalso. apply Htxt. apply (append_inj_r option "txt" "_writer"). exact H. }
    eexists. split; reflexivity.
Qed.

(** X8.  The script: when finding or enumerating raises, no file is
    written.  When they return the derivatives, the script writes each
    derivative into a file of its own, test1.sdf, test2.sdf, ... in the
    order of enumeration (an empty test1.sdf when there is none), and all
    of them, in that order, into test.txt. *)
Theorem X8_script_writes_one_sdf_per_derivative (w : world) (d : disk) :
  let run :=
    (RGroupMolObject_init (MolFromSmiles "c1cc(CCCO)ccc1") ;;; main_pipeline) w in
  (forall e w', run = (Raise e, w') -> main_script w d = (Raise e, w', d))
  /\ (forall ds w', run = (Ok ds, w') ->
      exists d',
        main_script w d = (Ok tt, w', d')
        /\ dict_get "test.txt" d' = Some (mkFile SmilesWriter ds)
        /\ (forall k m, nth_error ds k = Some m ->
              dict_get (("test" ++ str_of_nat (S k)) ++ ".sdf")%string d'
              = Some (mkFile SDWriter [m]))
        /\ (ds = [] -> dict_get "test1.sdf" d' = Some (mkFile SDWriter []))).
Proof.
  intros run. split.
  - intros e w' Hrun. unfold main_script. fold run. now rewrite Hrun.
  - intros ds w' Hrun. unfold main_script. fold run. rewrite Hrun.
    set (sdf := mkFileWriter ds "test" "sdf" (PyInt 1)).
    set (txt := mkFileWriter ds "test" "txt" PyNone).
    change (FileWriter_init "test" ds "sdf" (PyInt 1) d)
      with (Ok sdf, sdf_writer sdf d).
    cbv iota.
    change (FileWriter_init "test" ds "txt" PyNone (sdf_writer sdf d))
      with (Ok txt, txt_writer txt (sdf_writer sdf d)).
    cbv iota. eexists. split; [reflexivity|].
    rewrite (txt_writer_unfragmented txt _ eq_refl).
    rewrite (sdf_writer_fragmented sdf d eq_refl).
    cbn [fw_name fw_molecules fw_fragmentation sdf txt].
    split; [apply dict_get_set_same|]. split.
    + intros k m Hk. rewrite dict_get_set_other.
      2:{ intros Heq. symmetry in Heq. revert Heq.
          apply (sdf_is_not_txt _ "test"). }
      destruct ds as [|i rest]; [destruct k; discriminate|].
      rewrite (split_from_start (PyInt 1) i rest eq_refl), split_singletons.
      apply (store_files_lookup SDWriter "test" ".sdf" _ 1 k [m] d).
      rewrite nth_error_map, Hk. reflexivity.
    + intros ->. rewrite dict_get_set_other by discriminate.
      apply (store_files_lookup SDWriter "test" ".sdf" [[]] 1 0 [] d).
      reflexivity.
Qed.

End ScriptProperties.

(** * Properties of the finder and the enumerator at the edges *)

Section EdgeProperties.
Context {rdkit : RDKit}.

Lemma collect_acc (sm : option Mol) (ps : list _) (acc : list Mol) :
  collect sm acc ps = match collect sm [] ps with
                      | Ok out => Ok (acc ++ out)
                      | Raise e => Raise e
                      end.
Proof.
  revert acc. induction ps as [|p ps IH]; intros acc; simpl.
  - now rewrite app_nil_r.
  - destruct (rewrite_pair sm p) as [x|e]; [|reflexivity].
    rewrite (IH (acc ++ [x])), (IH [x]).
    destruct (collect sm [] ps); [|reflexivity].
    now rewrite <- app_assoc.
Qed.

Lemma pairs_app (found1 found2 lib : dict entry) :
  pairs (found1 ++ found2) lib = pairs found1 lib ++ pairs found2 lib.
Proof. unfold pairs. apply flat_map_app. Qed.

Lemma pairs_nil_iff (found lib : dict entry) :
  pairs found lib = [] <->
  forall f c, In f found -> In c lib -> pattern_text c = pattern_text f.
Proof.
  split.
  - intros Hnil f c Hf Hc.
    destruct (String.eqb_spec (pattern_text c) (pattern_text f)) as [H|H];
      [exact H|].
    assert (Hin : In (f, c) (pairs found lib)) by (apply in_pairs; auto).
    rewrite Hnil in Hin. contradiction.
  - intros Hall. destruct (pairs found lib) as [|[f c] ps] eqn:E; [reflexivity|].
    assert (Hin : In (f, c) (pairs found lib)) by (rewrite E; now left).
    apply in_pairs in Hin. destruct Hin as [Hf [Hc Hne]].
    exfalso. apply Hne. now apply Hall.
Qed.

(** X9.  An object made without a molecule (the constructor was given
    None, as when the scaffold SMILES did not parse) has no molecule
    attribute.  On it the finder raises AttributeError as soon as the
    library has an entry, and returns the empty mapping for the empty
    library; the enumerator raises AttributeError as soon as a found entry
    and a library entry differ in pattern text, and returns no derivative
    otherwise.  Neither prints. *)
Theorem X9_object_without_molecule (w : world) (found : dict entry) :
  let w0 := snd (RGroupMolObject_init None w) in
  let lib := R_GROUPS w0 in
  lib = R_GROUPS w
  /\ (lib = [] -> find_r_groups w0 = (Ok [], w0))
  /\ (lib <> [] -> find_r_groups w0 = (Raise no_molecule, w0))
  /\ ((exists f c, In f found /\ In c lib
                   /\ pattern_text c <> pattern_text f) ->
      r_group_enumerator found w0 = (Raise no_molecule, w0))
  /\ ((forall f c, In f found -> In c lib ->
                   pattern_text c = pattern_text f) ->
      r_group_enumerator found w0 = (Ok [], w0)).
Proof.
  intros w0 lib. split; [reflexivity|].
  assert (Hm : self_molecule w0 = None) by reflexivity.
  split; [|split; [|split]].
  - intros Hlib. rewrite find_r_groups_find_from. fold lib. rewrite Hlib.
    simpl. now rewrite printed_nil.
  - intros Hlib. rewrite find_r_groups_find_from, Hm. fold lib.
    rewrite find_from_no_molecule by exact Hlib. simpl. now rewrite printed_nil.
  - intros [f [c [Hf [Hc Hne]]]]. rewrite r_group_enumerator_collect, Hm.
    fold lib. destruct (pairs found lib) as [|p ps] eqn:E.
    + exfalso. apply Hne. apply (proj1 (pairs_nil_iff found lib) E); assumption.
    + reflexivity.
  - intros Hall. rewrite r_group_enumerator_collect. fold lib.
    now rewrite (proj2 (pairs_nil_iff found lib) Hall).
Qed.

(** X10.  Enumerating for one mapping of found entries followed by another
    gives the derivatives of the first followed by those of the second;
    when the first enumeration raises, so does the whole, with the same
    exception. *)
Theorem X10_enumerator_of_appended_found
        (w : world) (found1 found2 : dict entry) :
  (forall out1 out2 w1 w2,
     r_group_enumerator found1 w = (Ok out1, w1) ->
     r_group_enumerator found2 w = (Ok out2, w2) ->
     r_group_enumerator (found1 ++ found2) w = (Ok (out1 ++ out2), w))
  /\ (forall e w1,
        r_group_enumerator found1 w = (Raise e, w1) ->
        r_group_enumerator (found1 ++ found2) w = (Raise e, w))
  /\ (forall out1 e w1 w2,
        r_group_enumerator found1 w = (Ok out1, w1) ->
        r_group_enumerator found2 w = (Raise e, w2) ->
        r_group_enumerator (found1 ++ found2) w = (Raise e, w)).
Proof.
  rewrite !r_group_enumerator_collect, pairs_app, collect_app.
  split; [|split].
  - intros out1 out2 w1 w2 H1 H2. injection H1 as H1 _. injection H2 as H2 _.
    rewrite H1, collect_acc, H2. reflexivity.
  - intros e w1 H1. injection H1 as H1 _. now rewrite H1.
  - intros out1 e w1 w2 H1 H2. injection H1 as H1 _. injection H2 as H2 _.
    rewrite H1, collect_acc, H2. reflexivity.
Qed.

Lemma map_snd_Forall2 (l l' : dict entry) :
  map snd l = map snd l' -> Forall2 (fun a b => snd a = snd b) l l'.
Proof.
  revert l'. induction l as [|a l IH]; intros [|b l'] H; simpl in H;
    try discriminate; constructor.
  - now injection H.
  - apply IH. now injection H.
Qed.

Lemma candidates_same_texts (lib lib' : dict entry) (f f' : string * entry) :
  snd f = snd f' ->
  Forall2 (fun a b => snd a = snd b) lib lib' ->
  Forall2 same_texts (map (pair f) (candidates lib (snd f)))
                     (map (pair f') (candidates lib' (snd f'))).
Proof.
  intros Hf Hlib. unfold candidates.
  induction Hlib as [|c c' lib lib' Hc _ IH]; [constructor|].
  assert (Hsk : skipped (snd f) c = skipped (snd f') c').
  { unfold skipped. now rewrite Hf, Hc. }
  cbn [filter]. rewrite Hsk.
  destruct (skipped (snd f') c'); cbn [negb map]; [exact IH|].
  constructor; [split; assumption|exact IH].
Qed.

Lemma pairs_same_texts (found found' lib lib' : dict entry) :
  Forall2 (fun a b => snd a = snd b) found found' ->
  Forall2 (fun a b => snd a = snd b) lib lib' ->
  Forall2 same_texts (pairs found lib) (pairs found' lib').
Proof.
  intros Hfound Hlib. unfold pairs.
  induction Hfound as [|f f' found found' Hf _ IH]; simpl; [constructor|].
  apply Forall2_app; [|exact IH].
  now apply candidates_same_texts.
Qed.

Lemma collect_same_texts (sm : option Mol) (ps qs : list _) (acc : list Mol) :
  Forall2 same_texts ps qs -> collect sm acc ps = collect sm acc qs.
Proof.
  intros H. revert acc. induction H as [|p q ps qs [H1 H2] _ IH]; intros acc;
    [reflexivity|].
  simpl. unfold rewrite_pair. rewrite H1, H2.
  destruct (rewrite _ _ _); [apply IH|reflexivity].
Qed.

(** X11.  The ids play no part in the enumeration: two runs whose found
    entries and whose libraries have, in order, the same fragment and
    pattern texts, on the same molecule, give the same result, whatever
    the ids are. *)
Theorem X11_ids_do_not_matter
        (w w' : world) (found found' : dict entry) :
  map snd found = map snd found' ->
  map snd (R_GROUPS w) = map snd (R_GROUPS w') ->
  self_molecule w = self_molecule w' ->
  fst (r_group_enumerator found w) = fst (r_group_enumerator found' w').
Proof.
  intros Hfound Hlib Hmol. rewrite !r_group_enumerator_collect. cbn [fst].
  rewrite Hmol. apply collect_same_texts.
  apply pairs_same_texts; now apply map_snd_Forall2.
Qed.

Lemma filter_other_le (A : Type) (h : A -> string) (x : string) (l : list A) :
  In x (map h l) ->
  length (filter (fun c => negb (String.eqb (h c) x)) l) <= length l - 1.
Proof.
  induction l as [|a l IH]; simpl; [contradiction|].
  intros Hin. destruct (String.eqb_spec (h a) x) as [Heq|Hne]; simpl.
  - rewrite Nat.sub_0_r. apply filter_length_le.
  - destruct Hin as [Hin|Hin]; [contradiction|].
    specialize (IH Hin). destruct l; simpl in *; [contradiction|lia].
Qed.

(** X12.  Finding and then enumerating never gives more than k * (m - 1)
    derivatives, k being the number of library entries that occur in the
    molecule and m the size of the library, whether or not pattern texts
    repeat: a found entry is never a candidate for itself. *)
Theorem X12_pipeline_output_bound (w w' : world) (out : list Mol) :
  NoDup (keys (R_GROUPS w)) ->
  main_pipeline w = (Ok out, w') ->
  let lib := R_GROUPS w in
  let found := filter (hit (self_molecule w)) lib in
  length out <= length found * (length lib - 1)
  /\ (forall f c, In (f, c) (pairs found lib) -> f <> c).
Proof.
  intros Hnd Hrun lib found.
  destruct (main_pipeline_ok w w' out Hnd Hrun) as [Hw' Henum].
  destruct (enumerator_ok_length _ _ _ _ Henum) as [_ Hall].
  apply Forall2_length in Hall. rewrite Hw' in Hall.
  change (R_GROUPS (printed w _)) with lib in Hall. fold found in Hall.
  split.
  - rewrite <- Hall, length_pairs.
    assert (Hle : forall l : dict entry,
               (forall f, In f l -> In f lib) ->
               list_sum (map (fun f => length (candidates lib (snd f))) l)
               <= length l * (length lib - 1)).
    { induction l as [|f l IH]; intros Hsub; simpl; [lia|].
      assert (Hf : length (candidates lib (snd f)) <= length lib - 1).
      { apply (filter_other_le _ pattern_text (pattern_text f) lib).
        apply in_map. apply Hsub. now left. }
      assert (Hl := IH (fun f' Hf' => Hsub f' (or_intror Hf'))). lia. }
    apply Hle. intros f Hf. unfold found in Hf. apply filter_In in Hf. tauto.
  - intros f c Hin Heq. apply in_pairs in Hin.
    destruct Hin as [_ [_ Hne]]. apply Hne. now rewrite Heq.
Qed.

Lemma filter_none (A : Type) (p : A -> bool) (l : list A) :
  (forall x, In x l -> p x = false) -> filter p l = [].
Proof.
  induction l as [|a l IH]; intros Hno; [reflexivity|]. simpl.
  rewrite (Hno a (or_introl eq_refl)). apply IH.
  intros x Hx. apply Hno. now right.
Qed.

(** X13.  When no library entry occurs in the molecule, or when all library
    entries have one pattern text, finding and then enumerating gives no
    derivative; in the first case nothing is printed and no fragment is
    read, so fragments that do not parse go unnoticed. *)
Theorem X13_nothing_to_enumerate (w : world) (g : Mol) :
  self_molecule w = Some g ->
  Forall pattern_parses (R_GROUPS w) ->
  ((forall kv, In kv (R_GROUPS w) -> hit (Some g) kv = false) ->
   main_pipeline w = (Ok [], w))
  /\ ((forall c1 c2, In c1 (R_GROUPS w) -> In c2 (R_GROUPS w) ->
                     pattern_text c1 = pattern_text c2) ->
      NoDup (keys (R_GROUPS w)) ->
      fst (main_pipeline w) = Ok []).
Proof.
  intros Hg Hparse.
  assert (Hfind : find_r_groups w =
            (Ok (fold_left store (filter (hit (Some g)) (R_GROUPS w)) []),
             printed w (map (line_of (Some g))
                            (filter (hit (Some g)) (R_GROUPS w))))).
  { rewrite find_r_groups_find_from, Hg.
    now rewrite (find_from_parsed g _ [] Hparse). }
  split.
  - intros Hno.
    assert (Hnil : filter (hit (Some g)) (R_GROUPS w) = []).
    { apply filter_none. exact Hno. }
    unfold main_pipeline, bind. rewrite Hfind, Hnil. simpl.
    now rewrite printed_nil.
  - intros Hone Hnd. unfold main_pipeline, bind. rewrite Hfind.
    unfold store. rewrite (fold_dict_set_fresh _ _ _ (filter_hit_keys (Some g) _ Hnd)).
    rewrite r_group_enumerator_collect. cbn [fst app].
    change (R_GROUPS (printed w _)) with (R_GROUPS w).
    rewrite (proj2 (pairs_nil_iff _ _)); [reflexivity|].
    intros f c Hf Hc. apply filter_In in Hf. apply Hone; tauto.
Qed.

End EdgeProperties.

(** * The further properties on the chain chemistry *)

Section WriterOnChains.
Import ChainChem.

(** X1: two molecules, no fragmentation, a disk that has an out.sdf. *)
Lemma X1_unfragmented_one_file_witness :
  let self := mkFileWriter ["CCN"; "CCS"] "out" "sdf" PyNone in
  let d := [("out.sdf", mkFile SDWriter ["CCC"]);
            ("other.sdf", mkFile SDWriter ["CCC"])] in
  dict_get "out.sdf" (sdf_writer self d) = Some (mkFile SDWriter ["CCN"; "CCS"])
  /\ dict_get "other.sdf" (sdf_writer self d) = Some (mkFile SDWriter ["CCC"])
  /\ dict_get "out.txt" (txt_writer self d)
     = Some (mkFile SmilesWriter ["CCN"; "CCS"]).
Proof.
  intros self d.
  destruct (X1_unfragmented_one_file self d eq_refl) as [H1 [H2 [H3 _]]].
  split; [exact H1|]. split; [|exact H3].
  rewrite (H2 "other.sdf"); [reflexivity|discriminate].
Defined.

(** X2: three molecules in batches of two. *)
Lemma X2_fragments_keep_every_molecule_witness :
  let self := mkFileWriter ["CCN"; "CCS"; "CCO"] "out" "sdf" (PyInt 2) in
  sdf_writer self []
  = [("out1.sdf", mkFile SDWriter ["CCN"; "CCS"]);
     ("out2.sdf", mkFile SDWriter ["CCO"])]
  /\ exists files : list (list Mol),
       concat files = ["CCN"; "CCS"; "CCO"] /\ 1 <= length files.
Proof.
  intros self. split; [reflexivity|].
  destruct (X2_fragments_keep_every_molecule self [] eq_refl)
    as [files [Hcat [Hlen _]]].
  exists files. split; assumption.
Defined.

(** X3: the same export; the batches have two molecules and one. *)
Lemma X3_fragment_sizes_witness :
  let self := mkFileWriter ["CCN"; "CCS"; "CCO"] "out" "sdf" (PyInt 2) in
  exists files : list (list Mol),
    concat files = ["CCN"; "CCS"; "CCO"]
    /\ Forall (fun f => 1 <= length f <= 2) files.
Proof.
  intros self.
  destruct (X3_fragment_sizes self [] 2 eq_refl eq_refl)
    as [files [Hcat [_ [Hall _]]]]; [discriminate|].
  exists files. split; assumption.
Defined.

(** X4: three molecules in batches of two make two files. *)
Lemma X4_fragment_count_witness :
  let self := mkFileWriter ["CCN"; "CCS"; "CCO"] "out" "sdf" (PyInt 2) in
  exists n : nat,
    2 * (n - 1) < 3 <= 2 * n
    /\ dict_get (("out" ++ str_of_nat (S n)) ++ ".sdf")%string
                (sdf_writer self []) = None.
Proof.
  intros self.
  destruct (X4_fragment_count self [] 2 eq_refl eq_refl)
    as [n [Hn [_ Hnext]]]; [discriminate|].
  exists n. split; [exact Hn|exact Hnext].
Defined.

(** X5: a negative batch size. *)
Lemma X5_fragmentation_without_effect_witness :
  let self := mkFileWriter ["CCN"; "CCS"; "CCO"] "out" "sdf" (PyInt (-2)) in
  sdf_writer self [] = [("out1.sdf", mkFile SDWriter ["CCN"; "CCS"; "CCO"])].
Proof.
  intros self.
  destruct (X5_fragmentation_without_effect self [] eq_refl (or_introl eq_refl))
    as [H _].
  exact H.
Defined.

(** X6: the options sdf and mol2. *)
Lemma X6_only_sdf_and_txt_are_written_witness :
  let molecules : list Mol := ["CCN"] in
  fst (FileWriter_init "out" molecules "sdf" PyNone [])
  = Ok (mkFileWriter molecules "out" "sdf" PyNone)
  /\ exists e, FileWriter_init "out" molecules "mol2" PyNone [] = (Raise e, [])
               /\ exn_cls e = AttributeError.
Proof.
  intros molecules.
  destruct (X6_only_sdf_and_txt_are_written "out" molecules "sdf" PyNone [])
    as [Hsdf _].
  destruct (X6_only_sdf_and_txt_are_written "out" molecules "mol2" PyNone [])
    as [_ [_ Hother]].
  split.
  - now rewrite (Hsdf eq_refl).
  - apply Hother; discriminate.
Defined.

End WriterOnChains.

Section ScriptOnText.
Import TextChem.

(** X8: the script with the three entry library; the alcohol of the
    scaffold becomes an amine and a thiol. *)
Lemma X8_script_writes_one_sdf_per_derivative_witness :
  let w := world_with ChainChem.lib_abc in
  exists w' d',
    main_script w [] = (Ok tt, w', d')
    /\ dict_get "test.txt" d'
       = Some (mkFile SmilesWriter ["c1cc(CCCN)ccc1"; "c1cc(CCCS)ccc1"])
    /\ dict_get "test2.sdf" d' = Some (mkFile SDWriter ["c1cc(CCCS)ccc1"]).
Proof.
  intros w.
  destruct (X8_script_writes_one_sdf_per_derivative w []) as [_ Hok].
  destruct (Hok ["c1cc(CCCN)ccc1"; "c1cc(CCCS)ccc1"]
                (@mkWorld text_rdkit ChainChem.lib_abc (Some "c1cc(CCCO)ccc1")
                          ["Found Functional Group: alcohol | Pattern Count: 1"]
                          [])
                eq_refl)
    as [d' [Hrun [Htxt [Hsdf _]]]].
  eexists. exists d'. split; [exact Hrun|]. split; [exact Htxt|].
  apply (Hsdf 1 "c1cc(CCCS)ccc1"). reflexivity.
Defined.

End ScriptOnText.

Section EdgesOnChains.
Import ChainChem.

(** X10: found alcohol, then found thiol. *)
Lemma X10_enumerator_of_appended_found_witness :
  let w := world_of lib_abc "SCCO" in
  r_group_enumerator [("alcohol", ("O", "O")); ("thiol", ("S", "S"))] w
  = (Ok (["SCCN"; "SCCS"] ++ ["OCCO"; "NCCO"]), w).
Proof.
  intros w.
  destruct (X10_enumerator_of_appended_found w [("alcohol", ("O", "O"))]
                                             [("thiol", ("S", "S"))])
    as [Happ _].
  apply (Happ ["SCCN"; "SCCS"] ["OCCO"; "NCCO"] w w); reflexivity.
Defined.

(** X11: the same texts under other ids. *)
Lemma X11_ids_do_not_matter_witness :
  let w := world_of lib_abc "CCO" in
  let w' := world_of [("a", ("O", "O")); ("b", ("N", "N")); ("c", ("S", "S"))]
                     "CCO" in
  fst (r_group_enumerator [("alcohol", ("O", "O"))] w)
  = fst (r_group_enumerator [("a", ("O", "O"))] w').
Proof.
  intros w w'.
  apply (X11_ids_do_not_matter w w'); reflexivity.
Defined.

(** X12: three of four entries occur, two of them with one pattern text:
    seven derivatives, fewer than 3 * 3. *)
Lemma X12_pipeline_output_bound_witness :
  let w := world_of lib_dup "CCO" in
  exists out w', main_pipeline w = (Ok out, w')
                 /\ length out = 7 /\ length out <= 3 * (4 - 1).
Proof.
  intros w.
  assert (Hnd : NoDup (keys (R_GROUPS w))).
  { repeat constructor; simpl; intuition discriminate. }
  destruct (main_pipeline w) as [[out|e] w'] eqn:Hrun; [|discriminate].
  destruct (X12_pipeline_output_bound w w' out Hnd Hrun) as [Hle _].
  exists out, w'. split; [reflexivity|]. split; [|exact Hle].
  vm_compute in Hrun. injection Hrun as <- _. reflexivity.
Defined.

(** X13: nothing of the library occurs in CCC; the fragment that does not
    parse is never read. *)
Lemma X13_nothing_to_enumerate_witness :
  let w := world_of lib_bad_fragment "CCC" in
  main_pipeline w = (Ok [], w).
Proof.
  intros w.
  destruct (X13_nothing_to_enumerate w "CCC" eq_refl) as [Hnone _].
  - repeat constructor; discriminate.
  - apply Hnone. intros kv [<-|[<-|[<-|[]]]]; reflexivity.
Defined.

End EdgesOnChains.

Section StaleFiles.
Context {rdkit : RDKit}.

(** X14.  The writers never delete: with a batch size b and n files to
    write, the files of the same name numbered above n (and the one
    numbered 0) are left as they were, so an earlier, longer export leaves
    its last files behind. *)
Theorem X14_higher_numbered_files_stay (self : FileWriter) (d : disk) (b : nat) :
  truthy (fw_fragmentation self) = true ->
  batch_size (fw_fragmentation self) = Some b ->
  fw_molecules self <> [] ->
  let sdf k := ((fw_name self ++ str_of_nat k) ++ ".sdf")%string in
  let txt k := ((fw_name self ++ str_of_nat k) ++ ".txt")%string in
  exists n : nat,
    b * (n - 1) < length (fw_molecules self) <= b * n
    /\ forall k, k = 0 \/ n < k ->
         dict_get (sdf k) (sdf_writer self d) = dict_get (sdf k) d
         /\ dict_get (txt k) (txt_writer self d) = dict_get (txt k) d.
Proof.
  intros Hf Hb Hne sdf txt.
  rewrite (sdf_writer_fragmented self d Hf), (txt_writer_fragmented self d Hf).
  destruct (fw_molecules self) as [|i rest] eqn:Hms; [congruence|].
  rewrite (split_from_start _ i rest Hf).
  assert (H1 : 1 <= length [i] <= b).
  { simpl. apply batch_size_pos in Hb. lia. }
  destruct (split_from_sizes _ b [i] rest Hf Hb H1) as [_ [_ Hcount]].
  cbn zeta in Hcount.
  set (files := split_from (fw_fragmentation self) [i] rest) in *.
  exists (length files). split; [simpl length in *; lia|].
  intros k Hk. split; apply store_files_other; intros j Hj Heq;
    apply numbered_path_inj in Heq; lia.
Qed.

End StaleFiles.

Section StaleFilesOnChains.
Import ChainChem.

(** X14: out3.sdf of an earlier export is still there after an export that
    needs two files. *)
Lemma X14_higher_numbered_files_stay_witness :
  let self := mkFileWriter ["CCN"; "CCS"; "CCO"] "out" "sdf" (PyInt 2) in
  let d := [("out3.sdf", mkFile SDWriter ["CCC"])] in
  sdf_writer self d
  = [("out3.sdf", mkFile SDWriter ["CCC"]);
     ("out1.sdf", mkFile SDWriter ["CCN"; "CCS"]);
     ("out2.sdf", mkFile SDWriter ["CCO"])]
  /\ exists n : nat,
       2 * (n - 1) < 3 <= 2 * n
       /\ dict_get "out3.sdf" (sdf_writer self d)
          = Some (mkFile SDWriter ["CCC"]).
Proof.
  intros self d. split; [reflexivity|].
  destruct (X14_higher_numbered_files_stay self d 2 eq_refl eq_refl)
    as [n [Hn Hstay]]; [discriminate|].
  exists n. split; [exact Hn|].
  assert (Hn2 : n = 2) by (simpl in Hn; lia).
  destruct (Hstay 3) as [H _]; [right; lia|]. exact H.
Defined.

End StaleFilesOnChains.
